(** * Real-time messaging and notification subsystem

    A shallow embedding of the Socket.IO gateway of [index.js] and of the
    REST handlers of [routes/messages.js] and [routes/notifications.js],
    together with the properties of the written specification that concern
    them.

    Modelling conventions.
    - A JavaScript string is a Rocq [string]; each character stands for one
      code unit below 256.  A property that may be absent from a payload is a
      [field]: [None] is JavaScript's [undefined].
    - [new Date()] reads an oracle clock kept in the world; every call takes
      the next reading, and the theorems hold for every clock.
    - The MongoDB collections are lists of documents in insertion order.  An
      [ObjectId] is a natural number handed out by [insertOne].  A store
      operation always completes; the only exceptions are JavaScript's own
      ([TypeError] on a property of [undefined], [new ObjectId] on an invalid
      id).
    - A handler runs from its first to its last statement without another
      handler in between. *)

From Stdlib Require Import ZArith String Ascii.
From stdpp Require Import base option list strings gmap sorting.

Open Scope string_scope.
Set Warnings "-clear-no-such-hyp".

(** ** JavaScript helpers *)

Definition field := option string.

Module JS.

(** Truthiness of a string: every string but the empty one. *)
Definition truthy (s : string) : bool :=
  match s with
  | EmptyString => false
  | String _ _ => true
  end.

(** Truthiness of a property that is a string or [undefined]. *)
Definition truthy_field (f : field) : bool :=
  match f with
  | Some s => truthy s
  | None => false
  end.

(** [s.split(sep)] for a separator of one character. *)
Fixpoint split (sep : ascii) (s : string) : list string :=
  match s with
  | EmptyString => [EmptyString]
  | String c r =>
      if Ascii.eqb c sep then EmptyString :: split sep r
      else match split sep r with
           | h :: t => String c h :: t
           | [] => [String c EmptyString]
           end
  end.

(** [arr.join(sep)]. *)
Fixpoint join (sep : string) (arr : list string) : string :=
  match arr with
  | [] => EmptyString
  | [x] => x
  | x :: rest => x ++ sep ++ join sep rest
  end.

(** [arr.sort()] with the default comparison: by code units, stable. *)
Fixpoint sort_insert (x : string) (sorted : list string) : list string :=
  match sorted with
  | [] => [x]
  | y :: rest => if String.ltb y x then y :: sort_insert x rest
                 else x :: y :: rest
  end.

Definition sort (arr : list string) : list string :=
  foldr sort_insert [] arr.

(** [arr.includes(x)] on an array of properties (SameValueZero, which on
    strings and [undefined] is equality). *)
Definition includes (arr : list field) (x : field) : bool :=
  bool_decide (x ∈ arr).

(** White space and line terminators among the code units below 256. *)
Definition is_space (c : ascii) : bool :=
  let n := nat_of_ascii c in
  ((9 <=? n)%nat && (n <=? 13)%nat) || (n =? 32)%nat || (n =? 160)%nat.

Fixpoint trim_start (s : string) : string :=
  match s with
  | EmptyString => EmptyString
  | String c r => if is_space c then trim_start r else s
  end.

Fixpoint trim_end (s : string) : string :=
  match s with
  | EmptyString => EmptyString
  | String c r =>
      match trim_end r with
      | EmptyString => if is_space c then EmptyString else String c EmptyString
      | r' => String c r'
      end
  end.

(** [s.trim()]. *)
Definition trim (s : string) : string := trim_end (trim_start s).

(** [`${f}`]: a template literal prints [undefined] by name. *)
Definition show (f : field) : string := default "undefined" f.

(** Whether the code unit [c] occurs in [s]. *)
Fixpoint has_char (c : ascii) (s : string) : bool :=
  match s with
  | EmptyString => false
  | String c' r => Ascii.eqb c' c || has_char c r
  end.

(** [f || null] on a property: a missing or empty string gives a missing
    value. *)
Definition or_null (f : field) : field :=
  if truthy_field f then f else None.

End JS.

(** ** Conversation identifier, [routes/messages.js] *)

(** [[userId, partner.uid].sort().join('_')]. *)
Definition canonicalId (userA userB : string) : string :=
  JS.join "_" (JS.sort [userA; userB]).

(** ** Documents *)

Module User.
Record t := mk { uid : field; displayName : field; photoURL : field }.
End User.

Module Connection.
Record t := mk { senderId : field; receiverId : field; status : string }.
End Connection.

Module Message.
Record t := mk {
  _id : nat;
  conversationId : field;
  senderId : field;
  receiverId : field;
  content : field;
  timestamp : Z;
  read : bool;
  readAt : option Z;
  createdAt : option Z;
  updatedAt : option Z
}.

#[global] Instance eq_dec : EqDecision t.
Proof. solve_decision. Defined.
End Message.

Module Notification.
Record t := mk {
  _id : nat;
  userId : field;
  type : string;
  title : string;
  message : string;
  senderId : field;
  senderName : string;
  senderPhotoURL : field;
  targetId : field;
  targetType : field;
  read : bool;
  createdAt : Z;
  readAt : option Z
}.

#[global] Instance eq_dec : EqDecision t.
Proof. solve_decision. Defined.
End Notification.

(** ** Collections

    The operations of a MongoDB collection that the handlers call, on a list
    of documents.  A filter is a boolean function of the document and [$set]
    is a function on documents.  [modifiedCount] counts the matched documents
    that the update really changes: an update that writes the values a
    document already has matches it without modifying it. *)

Record UpdateResult := { matchedCount : nat; modifiedCount : nat }.

Section Collection.
Context {D : Type} `{EqDecision D}.

Definition changes (set : D → D) (d : D) : bool := bool_decide (set d ≠ d).

Definition countDocuments (query : D → bool) (docs : list D) : nat :=
  length (List.filter query docs).

Definition findOne (query : D → bool) (docs : list D) : option D :=
  List.find query docs.

Definition updateMany (query : D → bool) (set : D → D) (docs : list D)
  : list D * UpdateResult :=
  ((λ d, if query d then set d else d) <$> docs,
   {| matchedCount := countDocuments query docs;
      modifiedCount :=
        countDocuments (changes set) (List.filter query docs) |}).

Fixpoint updateOne_docs (query : D → bool) (set : D → D) (docs : list D)
  : list D :=
  match docs with
  | [] => []
  | d :: rest => if query d then set d :: rest
                 else d :: updateOne_docs query set rest
  end.

Definition updateOne (query : D → bool) (set : D → D) (docs : list D)
  : list D * UpdateResult :=
  (updateOne_docs query set docs,
   match findOne query docs with
   | Some d => {| matchedCount := 1;
                  modifiedCount := if changes set d then 1 else 0 |}
   | None => {| matchedCount := 0; modifiedCount := 0 |}
   end).

Fixpoint deleteOne_docs (query : D → bool) (docs : list D) : list D :=
  match docs with
  | [] => []
  | d :: rest => if query d then rest else d :: deleteOne_docs query rest
  end.
End Collection.

(** ** Gateway emissions *)

(** Where an emission is addressed. *)
Inductive Target :=
| ToSelf (socket : string)                    (* socket.emit *)
| ToRoom (room : field)                       (* io.to(room).emit *)
| ToRoomExcept (room : field) (socket : string)  (* socket.to(room).emit *)
| Broadcast (socket : string).                (* socket.broadcast.emit *)

Inductive Payload :=
| PMessage (m : Message.t)
| PNotification (n : Notification.t)
| PPreview (senderId : field) (content : string)
| PCount (n : nat)
| PError (error : string)
| PStatus (userId : string) (status : string)
| PTyping (userId : field) (isTyping : option bool)
| PRead (userId : field).

(** An emission, with the connections it reached when it was made. *)
Record Emission := {
  target : Target;
  event : string;
  payload : Payload;
  delivered_to : gset string
}.

(** ** The world *)

Inductive Coll := Users | Connections | Messages | Notifications.
Inductive Access := Read | Write.

Record World := mkWorld {
  users : list User.t;
  connections : list Connection.t;
  messages : list Message.t;
  notifications : list Notification.t;
  next_oid : nat;
  store_log : list (Access * Coll);       (* every store call, oldest first *)
  onlineUsers : list (string * string);   (* the Map, in insertion order *)
  sockets : gset string;                  (* the live connections *)
  rooms : gmap string (gset string);      (* room -> connections joined *)
  emitted : list Emission;                (* oldest first *)
  clock : nat → Z;
  date_calls : nat
}.

(** Functional update of one field of the world. *)
Definition set_messages v (w : World) : World :=
  let '(mkWorld x0 x1 x2 x3 x4 x5 x6 x7 x8 x9 x10 x11) := w in
  mkWorld x0 x1 v x3 x4 x5 x6 x7 x8 x9 x10 x11.

Definition set_notifications v (w : World) : World :=
  let '(mkWorld x0 x1 x2 x3 x4 x5 x6 x7 x8 x9 x10 x11) := w in
  mkWorld x0 x1 x2 v x4 x5 x6 x7 x8 x9 x10 x11.

Definition set_next_oid v (w : World) : World :=
  let '(mkWorld x0 x1 x2 x3 x4 x5 x6 x7 x8 x9 x10 x11) := w in
  mkWorld x0 x1 x2 x3 v x5 x6 x7 x8 x9 x10 x11.

Definition set_store_log v (w : World) : World :=
  let '(mkWorld x0 x1 x2 x3 x4 x5 x6 x7 x8 x9 x10 x11) := w in
  mkWorld x0 x1 x2 x3 x4 v x6 x7 x8 x9 x10 x11.

Definition set_onlineUsers v (w : World) : World :=
  let '(mkWorld x0 x1 x2 x3 x4 x5 x6 x7 x8 x9 x10 x11) := w in
  mkWorld x0 x1 x2 x3 x4 x5 v x7 x8 x9 x10 x11.

Definition set_sockets v (w : World) : World :=
  let '(mkWorld x0 x1 x2 x3 x4 x5 x6 x7 x8 x9 x10 x11) := w in
  mkWorld x0 x1 x2 x3 x4 x5 x6 v x8 x9 x10 x11.

Definition set_rooms v (w : World) : World :=
  let '(mkWorld x0 x1 x2 x3 x4 x5 x6 x7 x8 x9 x10 x11) := w in
  mkWorld x0 x1 x2 x3 x4 x5 x6 x7 v x9 x10 x11.

Definition set_emitted v (w : World) : World :=
  let '(mkWorld x0 x1 x2 x3 x4 x5 x6 x7 x8 x9 x10 x11) := w in
  mkWorld x0 x1 x2 x3 x4 x5 x6 x7 x8 v x10 x11.

Definition set_date_calls v (w : World) : World :=
  let '(mkWorld x0 x1 x2 x3 x4 x5 x6 x7 x8 x9 x10 x11) := w in
  mkWorld x0 x1 x2 x3 x4 x5 x6 x7 x8 x9 x10 v.

(** ** Handler monad: world passing, with JavaScript exceptions *)

Inductive Outcome (A : Type) :=
| Ret (a : A)
| Throw (e : string).
Arguments Ret {A} a.
Arguments Throw {A} e.

Definition M (A : Type) : Type := World → Outcome A * World.

#[global] Instance M_ret : MRet M := λ A a w, (Ret a, w).

#[global] Instance M_bind : MBind M := λ A B k m w,
  match m w with
  | (Ret a, w') => k a w'
  | (Throw e, w') => (Throw e, w')
  end.

Definition throw {A} (e : string) : M A := λ w, (Throw e, w).

(** [try { body } catch (error) { handler }]: what [body] did before it
    threw stays done. *)
Definition try_catch {A} (body : M A) (handler : string → M A) : M A := λ w,
  match body w with
  | (Ret a, w') => (Ret a, w')
  | (Throw e, w') => handler e w'
  end.

Definition gets {A} (proj : World → A) : M A := λ w, (Ret (proj w), w).
Definition modify (f : World → World) : M unit := λ w, (Ret tt, f w).

(** [new Date()], in milliseconds. *)
Definition new_Date : M Z := λ w,
  (Ret (clock w (date_calls w)), set_date_calls (S (date_calls w)) w).

(** ** Store calls, each one logged *)

Definition access (a : Access) (c : Coll) : M unit :=
  modify (λ w, set_store_log (store_log w ++ [(a, c)]) w).

Definition users_findOne (query : User.t → bool) : M (option User.t) :=
  access Read Users;; gets (λ w, findOne query (users w)).

Definition connections_findOne (query : Connection.t → bool)
  : M (option Connection.t) :=
  access Read Connections;; gets (λ w, findOne query (connections w)).

(** [insertOne(doc)]: the driver gives the document its [_id]. *)
Definition messages_insertOne (doc : nat → Message.t) : M Message.t :=
  access Write Messages;;
  id ← gets next_oid;
  modify (λ w, set_next_oid (S id) (set_messages (messages w ++ [doc id]) w));;
  mret (doc id).

Definition notifications_insertOne (doc : nat → Notification.t)
  : M Notification.t :=
  access Write Notifications;;
  id ← gets next_oid;
  modify (λ w, set_next_oid (S id)
                 (set_notifications (notifications w ++ [doc id]) w));;
  mret (doc id).

Definition messages_findOne (query : Message.t → bool)
  : M (option Message.t) :=
  access Read Messages;; gets (λ w, findOne query (messages w)).

Definition messages_updateMany (query : Message.t → bool)
    (set : Message.t → Message.t) : M UpdateResult :=
  access Write Messages;;
  docs ← gets messages;
  let result := updateMany query set docs in
  modify (set_messages result.1);;
  mret result.2.

Definition messages_deleteOne (query : Message.t → bool) : M nat :=
  access Write Messages;;
  docs ← gets messages;
  modify (set_messages (deleteOne_docs query docs));;
  mret (match findOne query docs with Some _ => 1 | None => 0 end)%nat.

Definition notifications_updateMany (query : Notification.t → bool)
    (set : Notification.t → Notification.t) : M UpdateResult :=
  access Write Notifications;;
  docs ← gets notifications;
  let result := updateMany query set docs in
  modify (set_notifications result.1);;
  mret result.2.

Definition notifications_updateOne (query : Notification.t → bool)
    (set : Notification.t → Notification.t) : M UpdateResult :=
  access Write Notifications;;
  docs ← gets notifications;
  let result := updateOne query set docs in
  modify (set_notifications result.1);;
  mret result.2.

Definition notifications_countDocuments (query : Notification.t → bool)
  : M nat :=
  access Read Notifications;;
  gets (λ w, countDocuments query (notifications w)).

Definition messages_countDocuments (query : Message.t → bool) : M nat :=
  access Read Messages;;
  gets (λ w, countDocuments query (messages w)).

Definition notifications_deleteOne (query : Notification.t → bool) : M nat :=
  access Write Notifications;;
  docs ← gets notifications;
  modify (set_notifications (deleteOne_docs query docs));;
  mret (match findOne query docs with Some _ => 1 | None => 0 end)%nat.

(** [deleteMany(query)], which answers how many documents it removed. *)
Definition notifications_deleteMany (query : Notification.t → bool) : M nat :=
  access Write Notifications;;
  docs ← gets notifications;
  modify (set_notifications (List.filter (λ n, negb (query n)) docs));;
  mret (countDocuments query docs).

(** [find(query).toArray()], in insertion order. *)
Definition connections_find (query : Connection.t → bool)
  : M (list Connection.t) :=
  access Read Connections;; gets (λ w, List.filter query (connections w)).

Definition users_find (query : User.t → bool) : M (list User.t) :=
  access Read Users;; gets (λ w, List.filter query (users w)).

(** ** Queries and updates written in the handlers *)

(** [{ conversationId, receiverId: userId, read: false }] *)
Definition unread_in (conversationId userId : field) (m : Message.t) : bool :=
  bool_decide (Message.conversationId m = conversationId)
  && bool_decide (Message.receiverId m = userId)
  && negb (Message.read m).

(** [{ $set: { read: true, readAt: new Date() } }] on a message *)
Definition set_read (now : Z) (m : Message.t) : Message.t :=
  Message.mk (Message._id m) (Message.conversationId m) (Message.senderId m)
    (Message.receiverId m) (Message.content m) (Message.timestamp m)
    true (Some now) (Message.createdAt m) (Message.updatedAt m).

(** [{ $set: { read: true, readAt: new Date(), updatedAt: new Date() } }] *)
Definition set_read_updated (now now' : Z) (m : Message.t) : Message.t :=
  Message.mk (Message._id m) (Message.conversationId m) (Message.senderId m)
    (Message.receiverId m) (Message.content m) (Message.timestamp m)
    true (Some now) (Message.createdAt m) (Some now').

(** [{ userId, read: false }] *)
Definition unread_of (userId : field) (n : Notification.t) : bool :=
  bool_decide (Notification.userId n = userId) && negb (Notification.read n).

(** [{ _id: new ObjectId(notificationId), userId }] *)
Definition owned_by (id : nat) (userId : field) (n : Notification.t) : bool :=
  bool_decide (Notification._id n = id)
  && bool_decide (Notification.userId n = userId).

(** [{ $set: { read: true, readAt: new Date() } }] on a notification *)
Definition set_seen (now : Z) (n : Notification.t) : Notification.t :=
  Notification.mk (Notification._id n) (Notification.userId n)
    (Notification.type n) (Notification.title n) (Notification.message n)
    (Notification.senderId n) (Notification.senderName n)
    (Notification.senderPhotoURL n) (Notification.targetId n)
    (Notification.targetType n) true (Notification.createdAt n) (Some now).

(** [{ uid: senderId }] *)
Definition has_uid (uid : field) (u : User.t) : bool :=
  bool_decide (User.uid u = uid).

(** [{ $or: [{ senderId, receiverId }, { senderId: receiverId,
    receiverId: senderId }], status: 'accepted' }] *)
Definition accepted_between (a b : field) (c : Connection.t) : bool :=
  ((bool_decide (Connection.senderId c = a)
    && bool_decide (Connection.receiverId c = b))
   || (bool_decide (Connection.senderId c = b)
       && bool_decide (Connection.receiverId c = a)))
  && bool_decide (Connection.status c = "accepted").

(** [{ receiverId: userId, read: false }] *)
Definition unread_for (userId : field) (m : Message.t) : bool :=
  bool_decide (Message.receiverId m = userId) && negb (Message.read m).

(** [{ userId }] *)
Definition of_user (userId : field) (n : Notification.t) : bool :=
  bool_decide (Notification.userId n = userId).

(** [{ $or: [{ senderId: userId }, { receiverId: userId }],
    status: 'accepted' }] *)
Definition accepted_of (userId : field) (c : Connection.t) : bool :=
  (bool_decide (Connection.senderId c = userId)
   || bool_decide (Connection.receiverId c = userId))
  && bool_decide (Connection.status c = "accepted").

(** [`notifications_${userId}`], the private room of a user *)
Definition notification_room (userId : field) : string :=
  "notifications_" ++ JS.show userId.

(** [getUnreadCount(userId)], [index.js] *)
Definition getUnreadCount (userId : field) : M nat :=
  notifications_countDocuments (unread_of userId).

(** ** Socket.IO: rooms and emission *)

Definition members (w : World) (room : field) : gset string :=
  match room with
  | Some r => rooms w !!! r
  | None => ∅
  end.

(** The connections an emission reaches.  [socket.to(room)] and
    [socket.broadcast] except the room named by the sender's id, where every
    connection sits from its connection on: whoever is in that room is left
    out, and a sender that has left it is not. *)
Definition receivers (w : World) (t : Target) : gset string :=
  match t with
  | ToSelf s => {[s]}
  | ToRoom r => members w r
  | ToRoomExcept r s => members w r ∖ members w (Some s)
  | Broadcast s => sockets w ∖ members w (Some s)
  end.

Definition emit (t : Target) (ev : string) (p : Payload) : M unit :=
  modify (λ w, set_emitted
    (emitted w ++ [{| target := t; event := ev; payload := p;
                      delivered_to := receivers w t |}]) w).

(** [socket.join(room)] *)
Definition socket_join (socket room : string) : M unit :=
  modify (λ w,
    set_rooms (<[room := {[socket]} ∪ rooms w !!! room]> (rooms w)) w).

(** [socket.leave(room)] *)
Definition socket_leave (socket room : string) : M unit :=
  modify (λ w,
    set_rooms (<[room := rooms w !!! room ∖ {[socket]}]> (rooms w)) w).

(** ** The presence Map *)

Fixpoint Map_get (k : string) (m : list (string * string)) : option string :=
  match m with
  | [] => None
  | (k', v) :: rest => if bool_decide (k' = k) then Some v else Map_get k rest
  end.

(** [m.set(k, v)]: a key already present keeps its place. *)
Fixpoint Map_set (k v : string) (m : list (string * string))
  : list (string * string) :=
  match m with
  | [] => [(k, v)]
  | (k', v') :: rest => if bool_decide (k' = k) then (k, v) :: rest
                        else (k', v') :: Map_set k v rest
  end.

Fixpoint Map_delete (k : string) (m : list (string * string))
  : list (string * string) :=
  match m with
  | [] => []
  | (k', v') :: rest => if bool_decide (k' = k) then rest
                        else (k', v') :: Map_delete k rest
  end.

(** [onlineUsers.get(receiverId)]: the keys are the strings announced by
    ['user-online'], so [undefined] finds nothing. *)
Definition onlineUsers_get (userId : field) : M (option string) :=
  gets (λ w, k ← userId; Map_get k (onlineUsers w)).

(** ** Gateway, [index.js]: one handler per inbound event *)

Module SendMessage.
Record t := mk {
  conversationId : field;
  senderId : field;
  receiverId : field;
  content : field
}.
End SendMessage.

Module Typing.
Record t := mk {
  conversationId : field;
  userId : field;
  isTyping : option bool
}.
End Typing.

Module MarkRead.
Record t := mk { conversationId : field; userId : field }.
End MarkRead.

Module MarkNotificationRead.
(** [notificationId] is [None] when [new ObjectId(notificationId)] throws
    and [ObjectId.isValid(notificationId)] is false. *)
Record t := mk { notificationId : option nat; userId : field }.
End MarkNotificationRead.

(** [content.substring(0, 100) + (content.length > 100 ? '...' : '')] *)
Definition preview (content : string) : string :=
  String.substring 0 100 content
  ++ (if (100 <? String.length content)%nat then "..." else "").

(** [sender?.displayName || 'Someone'] *)
Definition senderName_of (sender : option User.t) : string :=
  match sender ≫= User.displayName with
  | Some name => if JS.truthy name then name else "Someone"
  | None => "Someone"
  end.

(** [io.on('connection', ...)]: the connection is live and sits in the room
    named by its own id. *)
Definition on_connection (socket : string) : M unit :=
  modify (λ w, set_sockets ({[socket]} ∪ sockets w) w);;
  socket_join socket socket.

Definition on_user_online (socket userId : string) : M unit :=
  modify (λ w, set_onlineUsers (Map_set userId socket (onlineUsers w)) w);;
  emit (Broadcast socket) "user-status-changed" (PStatus userId "online");;
  socket_join socket (notification_room (Some userId));;
  count ← getUnreadCount (Some userId);
  emit (ToSelf socket) "notification-count" (PCount count).

Definition on_join_conversation (socket conversationId : string) : M unit :=
  socket_join socket conversationId.

Definition on_leave_conversation (socket conversationId : string) : M unit :=
  socket_leave socket conversationId.

Definition on_send_message (socket : string) (data : SendMessage.t) : M unit :=
  let '(SendMessage.mk conversationId senderId receiverId content) := data in
  try_catch
    (timestamp ← new_Date;
     message ← messages_insertOne (λ id,
       Message.mk id conversationId senderId receiverId content timestamp
         false None None None);
     sender ← users_findOne (has_uid senderId);
     text ← match content with
            | Some c => mret (preview c)
            | None => throw "TypeError"
            end;
     createdAt ← new_Date;
     notification ← notifications_insertOne (λ id,
       Notification.mk id receiverId "new_message" "New Message" text
         senderId (senderName_of sender) (sender ≫= User.photoURL)
         conversationId (Some "message") false createdAt None);
     receiverSocketId ← onlineUsers_get receiverId;
     match receiverSocketId with
     | Some sid =>
         if JS.truthy sid then
           emit (ToRoom (Some sid)) "new-notification"
             (PNotification notification);;
           count ← getUnreadCount receiverId;
           emit (ToRoom (Some (notification_room receiverId)))
             "notification-count" (PCount count)
         else mret tt
     | None => mret tt
     end;;
     emit (ToRoom conversationId) "receive-message" (PMessage message);;
     emit (ToSelf socket) "message-sent" (PMessage message))
    (λ _, emit (ToSelf socket) "message-error"
            (PError "Failed to send message")).

(** [server.js], the earlier revision of the gateway, without the
    notification store: the same two emissions, then a preview for a
    receiver who is online. *)
Module ServerJs.

(** [content.substring(0, 50) + (content.length > 50 ? '...' : '')] *)
Definition preview (content : string) : string :=
  String.substring 0 50 content
  ++ (if (50 <? String.length content)%nat then "..." else "").

Definition on_send_message (socket : string) (data : SendMessage.t)
  : M unit :=
  let '(SendMessage.mk conversationId senderId receiverId content) := data in
  try_catch
    (timestamp ← new_Date;
     message ← messages_insertOne (λ id,
       Message.mk id conversationId senderId receiverId content timestamp
         false None None None);
     emit (ToRoom conversationId) "receive-message" (PMessage message);;
     emit (ToSelf socket) "message-sent" (PMessage message);;
     receiverSocketId ← onlineUsers_get receiverId;
     match receiverSocketId with
     | Some sid =>
         if JS.truthy sid then
           text ← match content with
                  | Some c => mret (preview c)
                  | None => throw "TypeError"
                  end;
           emit (ToRoom (Some sid)) "new-message-notification"
             (PPreview senderId text)
         else mret tt
     | None => mret tt
     end)
    (λ _, emit (ToSelf socket) "message-error"
            (PError "Failed to send message")).

End ServerJs.

Definition on_typing (socket : string) (data : Typing.t) : M unit :=
  let '(Typing.mk conversationId userId isTyping) := data in
  emit (ToRoomExcept conversationId socket) "user-typing"
    (PTyping userId isTyping).

Definition on_mark_read (socket : string) (data : MarkRead.t) : M unit :=
  let '(MarkRead.mk conversationId userId) := data in
  try_catch
    (now ← new_Date;
     messages_updateMany (unread_in conversationId userId) (set_read now);;
     emit (ToRoomExcept conversationId socket) "messages-read" (PRead userId))
    (λ _, mret tt).

Definition on_mark_notification_read (socket : string)
    (data : MarkNotificationRead.t) : M unit :=
  let '(MarkNotificationRead.mk notificationId userId) := data in
  try_catch
    (id ← match notificationId with
          | Some id => mret id
          | None => throw "BSONError"
          end;
     now ← new_Date;
     notifications_updateOne (owned_by id userId) (set_seen now);;
     count ← getUnreadCount userId;
     emit (ToRoom (Some (notification_room userId)))
       "notification-count" (PCount count))
    (λ _, mret tt).

Definition on_mark_all_notifications_read (socket : string) (userId : field)
  : M unit :=
  try_catch
    (now ← new_Date;
     notifications_updateMany (unread_of userId) (set_seen now);;
     emit (ToRoom (Some (notification_room userId)))
       "notification-count" (PCount 0))
    (λ _, mret tt).

(** The first entry of the Map, in insertion order, held by [socket]. *)
Fixpoint registered_as (socket : string) (m : list (string * string))
  : option string :=
  match m with
  | [] => None
  | (userId, socketId) :: rest =>
      if bool_decide (socketId = socket) then Some userId
      else registered_as socket rest
  end.

(** ['disconnect']: Socket.IO has taken the connection out of its rooms
    before the handler runs. *)
Definition on_disconnect (socket : string) : M unit :=
  modify (λ w, set_sockets (sockets w ∖ {[socket]})
                 (set_rooms ((λ joined, joined ∖ {[socket]}) <$> rooms w) w));;
  online ← gets onlineUsers;
  match registered_as socket online with
  | Some userId =>
      modify (set_onlineUsers (Map_delete userId online));;
      emit (Broadcast socket) "user-status-changed" (PStatus userId "offline")
  | None => mret tt
  end.

(** ** REST responses *)

Inductive Body :=
| Failure (message : string)
| Fault (message error : string)
| Page (messages : list Message.t) (hasMore : bool)
| Sent (message : string) (data : Message.t)
| Modified (message : string) (modifiedCount : nat)
| Done (message : string)
| Counted (message : string) (unreadCount : nat)
| Count (count : nat).

Record Response := { status : nat; body : Body }.

(** The [success] flag of the JSON envelope. *)
Definition success (r : Response) : bool :=
  match body r with
  | Failure _ | Fault _ _ => false
  | _ => true
  end.

Definition respond (status : nat) (body : Body) : M Response :=
  mret {| status := status; body := body |}.

(** The [try { ... } catch (error) { res.status(500)... }] around a route. *)
Definition route (handler : M Response) : M Response :=
  try_catch handler (λ e, respond 500 (Fault "Internal server error" e)).

(** [conversationId.split('_')]; a [TypeError] on [undefined]. *)
Definition split_id (conversationId : field) : M (list string) :=
  match conversationId with
  | Some c => mret (JS.split "_" c)
  | None => throw "TypeError"
  end.

(** Insertion into a list sorted by decreasing [key], in front of the
    elements of the same key: folded from the right over a list it is a
    stable sort, greatest key first. *)
Fixpoint insert_by {A} (key : A → Z) (x : A) (sorted : list A) : list A :=
  match sorted with
  | [] => [x]
  | y :: rest =>
      if (key x <? key y)%Z then y :: insert_by key x rest
      else x :: y :: rest
  end.

(** The replies of the routes that list, create and clear. *)

Module Conversation.
Record t := mk {
  conversationId : string;
  partner : User.t;
  lastMessage : option Message.t;
  unreadCount : nat;
  updatedAt : Z
}.
End Conversation.

Inductive Reply :=
| Refused (message : string)
| Failed (message error : string)
| ConversationList (conversations : list Conversation.t) (count : nat)
| NotificationPage (notifications : list Notification.t)
    (total unreadCount : nat) (hasMore : bool)
| Cleared (message : string) (deletedCount : nat)
| Created (message : string) (notification : Notification.t)
| Found (messages : list Message.t) (count : nat).

(** The same [try ... catch] as [route], for these replies. *)
Definition route_reply (handler : M (nat * Reply)) : M (nat * Reply) :=
  try_catch handler (λ e, mret (500, Failed "Internal server error" e)).

(** [await Promise.all(items.map(async item => ...))], the callbacks taken
    in the order of the items. *)
Fixpoint for_each {A B} (f : A → M B) (items : list A) : M (list B) :=
  match items with
  | [] => mret []
  | x :: rest => y ← f x; ys ← for_each f rest; mret (y :: ys)
  end.

(** ** [routes/messages.js] *)

Module MessagesRoutes.

Fixpoint insert_desc (m : Message.t) (sorted : list Message.t)
  : list Message.t :=
  match sorted with
  | [] => [m]
  | m' :: rest =>
      if (Message.timestamp m <? Message.timestamp m')%Z
      then m' :: insert_desc m rest
      else m :: m' :: rest
  end.

(** [.find({ conversationId, timestamp: { $lt: before } })
     .sort({ timestamp: -1 }).limit(limit).toArray()]; documents of equal
    timestamp stay in insertion order, and a negative limit counts as its
    absolute value. *)
Definition find_page (conversationId : string) (before limit : Z)
  : M (list Message.t) :=
  access Read Messages;;
  gets (λ w,
    take (Z.abs_nat limit)
      (foldr insert_desc []
         (List.filter
            (λ m, bool_decide (Message.conversationId m = Some conversationId)
                  && (Message.timestamp m <? before)%Z)
            (messages w)))).

(** [GET /conversation/:conversationId].  [limit] is
    [parseInt(req.query.limit)], [None] for [NaN]; [before] is the date of
    a non-empty [req.query.before]. *)
Definition GET_conversation (conversationId : string) (userId : field)
    (limit before : option Z) : M Response :=
  route
    (let limit := match limit with
                  | Some l => if (l =? 0)%Z then 50%Z else l
                  | None => 50%Z
                  end in
     before ← match before with
              | Some b => mret b
              | None => new_Date
              end;
     let parts := JS.split "_" conversationId in
     let user1Id := parts !! 0%nat in
     let user2Id := parts !! 1%nat in
     if negb (JS.includes [user1Id; user2Id] userId) then
       respond 403 (Failure "Access denied to this conversation")
     else
       found ← find_page conversationId before limit;
       let messages := reverse found in
       (if JS.truthy_field userId then
          now ← new_Date;
          messages_updateMany (unread_in (Some conversationId) userId)
            (set_read now);;
          mret tt
        else mret tt);;
       respond 200
         (Page messages (Z.of_nat (length messages) =? limit)%Z)).

(** [POST /send] *)
Definition POST_send (body : SendMessage.t) : M Response :=
  let '(SendMessage.mk conversationId senderId receiverId content) := body in
  route
    (if negb (JS.truthy_field conversationId)
        || negb (JS.truthy_field senderId)
        || negb (JS.truthy_field receiverId)
        || negb (JS.truthy_field (JS.trim <$> content)) then
       respond 400 (Failure "Missing required fields")
     else
       parts ← split_id conversationId;
       let user1Id := parts !! 0%nat in
       let user2Id := parts !! 1%nat in
       if negb (JS.truthy_field user1Id) || negb (JS.truthy_field user2Id)
          || bool_decide (user1Id = user2Id) then
         respond 400 (Failure "Invalid conversation ID")
       else
         sender ← users_findOne (has_uid senderId);
         receiver ← users_findOne (has_uid receiverId);
         match sender, receiver with
         | Some _, Some _ =>
             connection ←
               connections_findOne (accepted_between senderId receiverId);
             match connection with
             | None =>
                 respond 403 (Failure "You can only message your connections")
             | Some _ =>
                 timestamp ← new_Date;
                 createdAt ← new_Date;
                 updatedAt ← new_Date;
                 message ← messages_insertOne (λ id,
                   Message.mk id conversationId senderId receiverId
                     (JS.trim <$> content) timestamp false None
                     (Some createdAt) (Some updatedAt));
                 respond 201 (Sent "Message sent successfully" message)
             end
         | _, _ => respond 404 (Failure "User not found")
         end).

(** [POST /mark-read] *)
Definition POST_mark_read (body : MarkRead.t) : M Response :=
  let '(MarkRead.mk conversationId userId) := body in
  route
    (if negb (JS.truthy_field conversationId)
        || negb (JS.truthy_field userId) then
       respond 400 (Failure "Missing required fields")
     else
       now ← new_Date;
       now' ← new_Date;
       result ← messages_updateMany (unread_in conversationId userId)
                  (set_read_updated now now');
       respond 200
         (Modified "Messages marked as read" (modifiedCount result))).

(** [message.senderId !== userId]: a sender stored as [null] differs from
    every request value. *)
Definition not_sender (m : Message.t) (userId : field) : bool :=
  match Message.senderId m, userId with
  | Some a, Some b => negb (bool_decide (a = b))
  | _, _ => true
  end.

(** [DELETE /message/:messageId]; [messageId] is [None] when
    [ObjectId.isValid] refuses it. *)
Definition DELETE_message (messageId : option nat) (userId : field)
  : M Response :=
  route
    (match messageId with
     | None => respond 400 (Failure "Invalid message ID")
     | Some id =>
         let by_id := λ m, bool_decide (Message._id m = id) in
         message ← messages_findOne by_id;
         match message with
         | None => respond 404 (Failure "Message not found")
         | Some m =>
             if not_sender m userId then
               respond 403 (Failure "You can only delete your own messages")
             else
               deletedCount ← messages_deleteOne by_id;
               if (deletedCount =? 0)%nat then
                 respond 404 (Failure "Message not found")
               else respond 200 (Done "Message deleted successfully")
         end
     end).

(** [GET /unread-count/:userId] *)
Definition GET_unread_count (userId : string) : M Response :=
  route
    (count ← messages_countDocuments (unread_for (Some userId));
     respond 200 (Count count)).

(** [connection.senderId === userId ? connection.receiverId
    : connection.senderId] *)
Definition partner_of (userId : string) (c : Connection.t) : field :=
  if bool_decide (Connection.senderId c = Some userId)
  then Connection.receiverId c
  else Connection.senderId c.

(** [[userId, partner.uid].sort().join('_')]: a missing uid sorts last and
    joins as the empty string. *)
Definition conversation_with (userId : string) (uid : field) : string :=
  match uid with
  | Some p => canonicalId userId p
  | None => userId ++ "_"
  end.

(** The projection [{ content: 1, senderId: 1, timestamp: 1, read: 1 }]. *)
Definition last_message_fields (m : Message.t) : Message.t :=
  Message.mk (Message._id m) None (Message.senderId m) None
    (Message.content m) (Message.timestamp m) (Message.read m) None None None.

(** [findOne({ conversationId }, { sort: { timestamp: -1 }, projection })];
    among messages of equal timestamp, the one inserted first. *)
Definition find_last (conversationId : string) : M (option Message.t) :=
  access Read Messages;;
  gets (λ w,
    last_message_fields
    <$> head (foldr insert_desc []
                (List.filter
                   (λ m, bool_decide
                           (Message.conversationId m = Some conversationId))
                   (messages w)))).

(** The callback of [partners.map]. *)
Definition conversation_of (userId : string) (partner : User.t)
  : M Conversation.t :=
  let conversationId := conversation_with userId (User.uid partner) in
  lastMessage ← find_last conversationId;
  unreadCount ← messages_countDocuments
                  (unread_in (Some conversationId) (Some userId));
  updatedAt ← match lastMessage with
              | Some m => mret (Message.timestamp m)
              | None => new_Date
              end;
  mret (Conversation.mk conversationId partner lastMessage unreadCount
          updatedAt).

(** [GET /conversations/:userId] *)
Definition GET_conversations (userId : string) : M (nat * Reply) :=
  route_reply
    (connections ← connections_find (accepted_of (Some userId));
     let conversationPartners := partner_of userId <$> connections in
     partners ← users_find
                  (λ u, bool_decide (User.uid u ∈ conversationPartners));
     conversations ← for_each (conversation_of userId) partners;
     (* conversations.sort((a, b) =>
          new Date(b.updatedAt) - new Date(a.updatedAt)) *)
     let sorted :=
       foldr (insert_by Conversation.updatedAt) [] conversations in
     mret (200, ConversationList sorted (length sorted))).

(** [.find({ conversationId, content: { $regex, $options: 'i' } })
     .sort({ timestamp: -1 }).limit(100).toArray()].  [regex pattern text]
    stands for MongoDB's case-insensitive match of [pattern] in [text]; a
    message without content matches nothing. *)
Definition search (regex : string → string → bool) (conversationId : string)
    (pattern : string) : M (list Message.t) :=
  access Read Messages;;
  gets (λ w,
    take 100
      (foldr insert_desc []
         (List.filter
            (λ m, bool_decide (Message.conversationId m = Some conversationId)
                  && match Message.content m with
                     | Some text => regex pattern text
                     | None => false
                     end)
            (messages w)))).

(** [GET /search/:conversationId] *)
Definition GET_search (regex : string → string → bool)
    (conversationId : string) (query userId : field) : M (nat * Reply) :=
  route_reply
    (match query with
     | None => mret (400, Refused "Search query is required")
     | Some q =>
         if negb (JS.truthy (JS.trim q)) then
           mret (400, Refused "Search query is required")
         else
           let parts := JS.split "_" conversationId in
           let user1Id := parts !! 0%nat in
           let user2Id := parts !! 1%nat in
           if negb (JS.includes [user1Id; user2Id] userId) then
             mret (403, Refused "Access denied to this conversation")
           else
             found ← search regex conversationId (JS.trim q);
             mret (200, Found found (length found))
     end).

End MessagesRoutes.

Module CreateNotification.
Record t := mk {
  userId : field;
  type : field;
  title : field;
  message : field;
  senderId : field;
  targetId : field;
  targetType : field
}.
End CreateNotification.

(** ** [routes/notifications.js] *)

Module NotificationsRoutes.

(** [GET /unread-count/:userId] *)
Definition GET_unread_count (userId : string) : M Response :=
  route
    (count ← notifications_countDocuments (unread_of (Some userId));
     respond 200 (Count count)).

(** [PUT /mark-read/:notificationId]; [notificationId] is [None] when
    [ObjectId.isValid] refuses it. *)
Definition PUT_mark_read (notificationId : option nat) (userId : field)
  : M Response :=
  route
    (match notificationId with
     | None => respond 400 (Failure "Invalid notification ID")
     | Some id =>
         now ← new_Date;
         result ← notifications_updateOne (owned_by id userId) (set_seen now);
         if (modifiedCount result =? 0)%nat then
           respond 404 (Failure "Notification not found")
         else
           unreadCount ←
             notifications_countDocuments (unread_of userId);
           respond 200 (Counted "Notification marked as read" unreadCount)
     end).

(** [PUT /mark-all-read/:userId] *)
Definition PUT_mark_all_read (userId : string) : M Response :=
  route
    (now ← new_Date;
     result ← notifications_updateMany (unread_of (Some userId))
                (set_seen now);
     respond 200
       (Modified "All notifications marked as read" (modifiedCount result))).

(** [.find(query).sort({ createdAt: -1 }).skip(offset).limit(limit)
     .toArray()]; notifications of equal date stay in insertion order, and
    a limit of 0 is no limit. *)
Definition find_page (query : Notification.t → bool) (offset limit : nat)
  : M (list Notification.t) :=
  access Read Notifications;;
  gets (λ w,
    let skipped :=
      drop offset
        (foldr (insert_by Notification.createdAt) []
           (List.filter query (notifications w)))
    in
    if (limit =? 0)%nat then skipped else take limit skipped).

(** The query of [GET /user/:userId]: [{ userId }], with [read: false] when
    [unreadOnly === 'true']. *)
Definition listed (userId : string) (unreadOnly : field)
    (n : Notification.t) : bool :=
  of_user (Some userId) n
  && (if bool_decide (unreadOnly = Some "true")
      then negb (Notification.read n) else true).

(** [GET /user/:userId].  [limit] and [offset] are [parseInt] of the query
    values, taken to be natural numbers, and [None] when the query has
    none. *)
Definition GET_user (userId : string) (limit offset : option nat)
    (unreadOnly : field) : M (nat * Reply) :=
  route_reply
    (let limit := default 20%nat limit in
     let offset := default 0%nat offset in
     let query := listed userId unreadOnly in
     notifications ← find_page query offset limit;
     total ← notifications_countDocuments query;
     unreadCount ← notifications_countDocuments (unread_of (Some userId));
     mret (200, NotificationPage notifications total unreadCount
                  (offset + length notifications <? total)%nat)).

(** [DELETE /:notificationId]; [notificationId] is [None] when
    [ObjectId.isValid] refuses it. *)
Definition DELETE_notification (notificationId : option nat) (userId : field)
  : M Response :=
  route
    (match notificationId with
     | None => respond 400 (Failure "Invalid notification ID")
     | Some id =>
         deletedCount ← notifications_deleteOne (owned_by id userId);
         if (deletedCount =? 0)%nat then
           respond 404 (Failure "Notification not found")
         else
           unreadCount ← notifications_countDocuments (unread_of userId);
           respond 200 (Counted "Notification deleted" unreadCount)
     end).

(** [DELETE /clear-all/:userId] *)
Definition DELETE_clear_all (userId : string) : M (nat * Reply) :=
  route_reply
    (deletedCount ← notifications_deleteMany (of_user (Some userId));
     mret (200, Cleared "All notifications cleared" deletedCount)).

(** [POST /create] *)
Definition POST_create (body : CreateNotification.t) : M (nat * Reply) :=
  let '(CreateNotification.mk userId type title message senderId targetId
          targetType) := body in
  route_reply
    (match userId, type, title, message with
     | Some userId', Some type', Some title', Some message' =>
         if negb (JS.truthy userId') || negb (JS.truthy type')
            || negb (JS.truthy title') || negb (JS.truthy message') then
           mret (400, Refused "Missing required fields")
         else
           sender ← (if JS.truthy_field senderId
                     then users_findOne (has_uid senderId)
                     else mret None);
           let senderName :=
             match sender ≫= User.displayName with
             | Some name => if JS.truthy name then name else "System"
             | None => "System"
             end in
           let senderPhotoURL := sender ≫= User.photoURL in
           createdAt ← new_Date;
           notification ← notifications_insertOne (λ id,
             Notification.mk id userId type' title' message'
               (JS.or_null senderId) senderName senderPhotoURL
               (JS.or_null targetId) (JS.or_null targetType) false createdAt
               None);
           mret (201, Created "Notification created" notification)
     | _, _, _, _ => mret (400, Refused "Missing required fields")
     end).

End NotificationsRoutes.

(** ** What the specification says, as predicates *)

(** What marking conversation [c] read for user [u] does to one message:
    an unread message of [c] addressed to [u] ends up read with a date, and
    a message addressed to anybody else is as it was. *)
Definition marked (c u : field) (m m' : Message.t) : Prop :=
  (Message.conversationId m = c → Message.receiverId m = u →
   Message.read m = false →
   Message.read m' = true ∧ is_Some (Message.readAt m'))
  ∧ (Message.receiverId m ≠ u → m' = m).

(** The presence registry has no entry for the receiver named in a
    payload. *)
Definition unregistered (w : World) (receiverId : field) : Prop :=
  ∀ k, receiverId = Some k → Map_get k (onlineUsers w) = None.

(** ** Sample worlds *)

Definition empty_world : World :=
  mkWorld [] [] [] [] 0 [] [] ∅ ∅ [] (λ n, Z.of_nat (1000 + n)) 0.

(** One unread message from [a] to [b]. *)
Definition hello : Message.t :=
  Message.mk 0 (Some "a_b") (Some "a") (Some "b") (Some "hi") 10 false None
    None None.

Definition world_with_hello : World :=
  mkWorld [] [] [hello] [] 1 [] [] ∅ ∅ [] (λ n, Z.of_nat (1000 + n)) 0.

(** Connection [s1] is live and has joined the room of conversation
    [a_b]. *)
Definition world_s1_joined : World :=
  ((on_connection "s1";; on_join_conversation "s1" "a_b") empty_world).2.

Definition hi_from_a : SendMessage.t :=
  SendMessage.mk (Some "a_b") (Some "a") (Some "b") (Some "hi").

Definition no_content_from_a : SendMessage.t :=
  SendMessage.mk (Some "a_b") (Some "a") (Some "b") None.

(** Users [a] and [b] exist and are not connected. *)
Definition world_strangers : World :=
  mkWorld [User.mk (Some "a") (Some "Ann") None;
           User.mk (Some "b") (Some "Bob") None]
    [] [hello] [] 1 [] [] ∅ ∅ [] (λ n, Z.of_nat (1000 + n)) 0.

(** An unread message filed under conversation [a_b] but addressed to
    [c]. *)
Definition stray : Message.t :=
  Message.mk 0 (Some "a_b") (Some "a") (Some "c") (Some "hi") 10 false None
    None None.

Definition world_with_stray : World :=
  mkWorld [] [] [stray] [] 1 [] [] ∅ ∅ [] (λ n, Z.of_nat (1000 + n)) 0.

(** An unread message of conversation [_b] addressed to the empty user
    id. *)
Definition nameless : Message.t :=
  Message.mk 0 (Some "_b") (Some "b") (Some "") (Some "hi") 10 false None
    None None.

Definition world_with_nameless : World :=
  mkWorld [] [] [nameless] [] 1 [] [] ∅ ∅ [] (λ n, Z.of_nat (1000 + n)) 0.

(** A notification of [u] that was read at time 5. *)
Definition seen : Notification.t :=
  Notification.mk 7 (Some "u") "new_message" "New Message" "hi" (Some "a")
    "Someone" None (Some "a_u") (Some "message") true 3 (Some 5%Z).

Definition world_seen : World :=
  mkWorld [] [] [] [seen] 8 [] [] ∅ ∅ [] (λ n, Z.of_nat (1000 + n)) 0.

(** ** Predicates and sample worlds for the further properties *)

(** The body of [POST /create] has its four required fields. *)
Definition create_ok (body : CreateNotification.t) : bool :=
  JS.truthy_field (CreateNotification.userId body)
  && JS.truthy_field (CreateNotification.type body)
  && JS.truthy_field (CreateNotification.title body)
  && JS.truthy_field (CreateNotification.message body).

(** [parseInt(req.query.limit) || 50], the limit that
    [GET /conversation/:conversationId] works with. *)
Definition page_limit (limit : option Z) : Z :=
  match limit with
  | Some l => if (l =? 0)%Z then 50%Z else l
  | None => 50%Z
  end.

(** What [GET /conversations/:userId] reports for one partner, against the
    message store [msgs]: the canonical id, the number of unread messages of
    that conversation addressed to the user, and the latest message of the
    conversation with its date, if there is one. *)
Definition reports (userId : string) (msgs : list Message.t)
    (c : Conversation.t) : Prop :=
  let cid := Conversation.conversationId c in
  cid
  = MessagesRoutes.conversation_with userId (User.uid (Conversation.partner c))
  ∧ Conversation.unreadCount c
    = countDocuments (unread_in (Some cid) (Some userId)) msgs
  ∧ match Conversation.lastMessage c with
    | Some l =>
        ∃ m, m ∈ msgs
             ∧ Message.conversationId m = Some cid
             ∧ l = MessagesRoutes.last_message_fields m
             ∧ Conversation.updatedAt c = Message.timestamp m
             ∧ ∀ m', m' ∈ msgs → Message.conversationId m' = Some cid →
                     (Message.timestamp m' ≤ Message.timestamp m)%Z
    | None => ∀ m, m ∈ msgs → Message.conversationId m ≠ Some cid
    end.

(** The two worlds hold the same documents, and the store calls made
    between them are reads. *)
Definition only_read (w w' : World) : Prop :=
  users w' = users w ∧ connections w' = connections w
  ∧ messages w' = messages w ∧ notifications w' = notifications w
  ∧ emitted w' = emitted w
  ∧ ∃ calls, store_log w' = (store_log w ++ calls)%list
             ∧ Forall (λ call, call.1 = Read) calls.

(** User [a] has announced itself from connection [s1]. *)
Definition world_a_online : World :=
  (on_user_online "s1" "a" (on_connection "s1" empty_world).2).2.

(** Connection [s1] has joined room [a_b], and user [b] has announced itself
    from connection [s2]. *)
Definition world_b_online : World :=
  (on_user_online "s2" "b" (on_connection "s2" world_s1_joined).2).2.

(** Users [a] and [b] are connected, and [a] has written [hello] to [b]. *)
Definition world_connected : World :=
  mkWorld [User.mk (Some "a") (Some "Ann") None;
           User.mk (Some "b") (Some "Bob") None]
    [Connection.mk (Some "a") (Some "b") "accepted"]
    [hello] [] 1 [] [] ∅ ∅ [] (λ n, Z.of_nat (1000 + n)) 0.





(** ** Proof tools *)

(** Running a handler: unfold the monad and the world accessors, leaving the
    collection operations and the JavaScript helpers folded. *)
Ltac run_calls :=
  cbv [on_send_message ServerJs.on_send_message on_mark_read
       on_mark_notification_read
       on_mark_all_notifications_read on_typing on_user_online
       MessagesRoutes.GET_conversation MessagesRoutes.POST_send
       MessagesRoutes.POST_mark_read MessagesRoutes.DELETE_message
       MessagesRoutes.find_page
       NotificationsRoutes.PUT_mark_read NotificationsRoutes.PUT_mark_all_read
       NotificationsRoutes.GET_unread_count
       route respond split_id getUnreadCount onlineUsers_get emit
       messages_insertOne notifications_insertOne messages_updateMany
       notifications_updateMany notifications_updateOne messages_findOne
       messages_deleteOne notifications_countDocuments users_findOne
       connections_findOne access new_Date try_catch throw gets modify
       mbind M_bind mret M_ret
       set_messages set_notifications set_next_oid set_store_log
       set_onlineUsers set_sockets set_rooms set_emitted set_date_calls
       users connections messages notifications next_oid store_log
       onlineUsers sockets rooms emitted clock date_calls].

Ltac run := run_calls; cbv [updateMany updateOne fst snd].

(** Follow the next branch of the handler: case on a scrutinee that holds no
    other case analysis. *)
Ltac branch :=
  match goal with
  | |- context [match ?x with _ => _ end] =>
      lazymatch x with
      | context [match _ with _ => _ end] => fail
      | _ => destruct x eqn:?
      end
  end.

(** The same for every handler of the development. *)
Ltac run_all :=
  cbv [on_connection on_user_online on_join_conversation
       on_leave_conversation on_send_message ServerJs.on_send_message
       on_typing on_mark_read on_mark_notification_read
       on_mark_all_notifications_read on_disconnect
       MessagesRoutes.GET_conversation MessagesRoutes.POST_send
       MessagesRoutes.POST_mark_read MessagesRoutes.DELETE_message
       MessagesRoutes.find_page MessagesRoutes.GET_unread_count
       MessagesRoutes.GET_conversations MessagesRoutes.conversation_of
       MessagesRoutes.find_last MessagesRoutes.GET_search
       MessagesRoutes.search
       NotificationsRoutes.PUT_mark_read NotificationsRoutes.PUT_mark_all_read
       NotificationsRoutes.GET_unread_count NotificationsRoutes.GET_user
       NotificationsRoutes.find_page NotificationsRoutes.DELETE_notification
       NotificationsRoutes.DELETE_clear_all NotificationsRoutes.POST_create
       route route_reply respond split_id getUnreadCount onlineUsers_get emit
       socket_join socket_leave
       messages_insertOne notifications_insertOne messages_updateMany
       notifications_updateMany notifications_updateOne messages_findOne
       messages_deleteOne notifications_countDocuments users_findOne
       connections_findOne messages_countDocuments notifications_deleteOne
       notifications_deleteMany connections_find users_find
       access new_Date try_catch throw gets modify
       mbind M_bind mret M_ret
       set_messages set_notifications set_next_oid set_store_log
       set_onlineUsers set_sockets set_rooms set_emitted set_date_calls
       users connections messages notifications next_oid store_log
       onlineUsers sockets rooms emitted clock date_calls].

(* ================================================================= *)
(** * Properties *)

Example canonicalId_ex1 : canonicalId "bob" "alice" = "alice_bob".
Proof. reflexivity. Qed.

Example canonicalId_ex2 : canonicalId "alice" "bob" = "alice_bob".
Proof. reflexivity. Qed.

Example split_ex1 : JS.split "_" "a_b_c" = ["a"; "b"; "c"].
Proof. reflexivity. Qed.

Example split_ex2 : JS.split "_" "" = [""].
Proof. reflexivity. Qed.

Example split_ex3 : JS.split "_" "a_" = ["a"; ""].
Proof. reflexivity. Qed.

Example trim_ex1 : JS.trim "  hi there " = "hi there".
Proof. reflexivity. Qed.

(** ** Collections *)

Section CollectionFacts.
Context {D : Type} `{EqDecision D}.
Implicit Types (q : D → bool) (set : D → D) (docs : list D).

Lemma countDocuments_none q docs :
  Forall (λ d, q d = false) docs → List.filter q docs = [].
Proof.
  induction 1 as [|d docs Hd _ IH]; [done|].
  cbn. by rewrite Hd.
Qed.

(** After [updateMany] with an update that falsifies the filter, no
    document matches the filter. *)
Lemma updateMany_settles q set docs :
  (∀ d, q (set d) = false) →
  Forall (λ d, q d = false) ((λ d, if q d then set d else d) <$> docs).
Proof.
  intros Hset. apply Forall_fmap, Forall_forall. intros d _. cbn.
  destruct (q d) eqn:E; [apply Hset | exact E].
Qed.

(** An [updateMany] that matches nothing leaves the collection alone. *)
Lemma updateMany_no_match q set docs :
  Forall (λ d, q d = false) docs →
  updateMany q set docs
  = (docs, {| matchedCount := 0; modifiedCount := 0 |}).
Proof.
  intros Hno. unfold updateMany, countDocuments.
  rewrite (countDocuments_none _ _ Hno). cbn. f_equal.
  induction Hno as [|d docs Hd _ IH]; [done|].
  cbn. rewrite Hd. f_equal. exact IH.
Qed.

Lemma updateMany_twice q set set' docs :
  (∀ d, q (set d) = false) →
  updateMany q set' (updateMany q set docs).1
  = ((updateMany q set docs).1, {| matchedCount := 0; modifiedCount := 0 |}).
Proof.
  intros Hset. apply updateMany_no_match. by apply updateMany_settles.
Qed.

Lemma countDocuments_settled q set docs :
  (∀ d, q (set d) = false) →
  countDocuments q (updateMany q set docs).1 = 0.
Proof.
  intros Hset. unfold countDocuments.
  rewrite countDocuments_none; [done|]. by apply updateMany_settles.
Qed.

Lemma Forall2_updateMany (P : D → D → Prop) q set docs :
  (∀ d, P d (if q d then set d else d)) →
  Forall2 P docs ((λ d, if q d then set d else d) <$> docs).
Proof.
  intros HP. apply Forall2_fmap_r, Forall_Forall2_diag, Forall_forall.
  intros d _. apply HP.
Qed.
End CollectionFacts.

Lemma unread_in_true c u m :
  unread_in c u m = true ↔
  Message.conversationId m = c ∧ Message.receiverId m = u
  ∧ Message.read m = false.
Proof.
  unfold unread_in.
  rewrite !andb_true_iff, !bool_decide_eq_true, negb_true_iff. tauto.
Qed.

Lemma unread_in_set_read c u now m : unread_in c u (set_read now m) = false.
Proof. unfold unread_in. cbn. by rewrite andb_false_r. Qed.

Lemma unread_in_set_read_updated c u now now' m :
  unread_in c u (set_read_updated now now' m) = false.
Proof. unfold unread_in. cbn. by rewrite andb_false_r. Qed.

Lemma unread_of_set_seen u now n : unread_of u (set_seen now n) = false.
Proof. unfold unread_of. cbn. by rewrite andb_false_r. Qed.

Lemma marked_step c u (set : Message.t → Message.t) m :
  (∀ m, Message.read (set m) = true ∧ is_Some (Message.readAt (set m))) →
  marked c u m (if unread_in c u m then set m else m).
Proof.
  intros Hset. destruct (unread_in c u m) eqn:E.
  - apply unread_in_true in E as (Hc & Hu & Hr). split; [auto|].
    intros Hne. by destruct Hne.
  - split; [|done]. intros Hc Hu Hr.
    assert (unread_in c u m = true) by (by apply unread_in_true).
    congruence.
Qed.

(** ** Conversation identifier *)

(** C4: the conversation identifier of two users does not depend on the
    order in which they are given: [canonicalId A B = canonicalId B A],
    where [canonicalId] sorts the two identities and joins them with ["_"]. *)
Theorem canonicalId_comm (A B : string) : canonicalId A B = canonicalId B A.
Proof.
  unfold canonicalId, JS.sort; cbn [foldr JS.sort_insert].
  unfold String.ltb.
  rewrite (String.compare_antisym A B).
  destruct (String.compare B A) eqn:E; cbn; try reflexivity.
  apply String.compare_eq_iff in E. by subst.
Qed.

(** ** Marking a conversation read *)

Lemma gateway_mark_read_marks w socket c u :
  ∃ w', on_mark_read socket (MarkRead.mk c u) w = (Ret tt, w')
        ∧ Forall2 (marked c u) (messages w) (messages w').
Proof.
  destruct w. run. eexists. split; [reflexivity|].
  apply Forall2_updateMany. intros m. apply marked_step.
  intros m'. cbn. eauto.
Qed.

Lemma rest_mark_read_marks w c u :
  JS.truthy_field c = true → JS.truthy_field u = true →
  ∃ n w', MessagesRoutes.POST_mark_read (MarkRead.mk c u) w
          = (Ret {| status := 200;
                    body := Modified "Messages marked as read" n |}, w')
          ∧ Forall2 (marked c u) (messages w) (messages w').
Proof.
  intros Hc Hu. destruct w. run. rewrite Hc, Hu. cbn [negb orb].
  eexists _, _. split; [reflexivity|].
  apply Forall2_updateMany. intros m. apply marked_step.
  intros m'. cbn. eauto.
Qed.

(** C6: marking a conversation read, by the gateway's ['mark-read'] event or
    by [POST /mark-read] with a conversationId and a userId, gives every
    unread message of the conversation addressed to the user [read = true]
    and a readAt date, and leaves every message addressed to somebody else
    unchanged. *)
Theorem mark_read_marks_addressee_only w socket c u
    (Hc : JS.truthy_field c = true) (Hu : JS.truthy_field u = true) :
  (∃ w', on_mark_read socket (MarkRead.mk c u) w = (Ret tt, w')
         ∧ Forall2 (marked c u) (messages w) (messages w'))
  ∧ (∃ n w', MessagesRoutes.POST_mark_read (MarkRead.mk c u) w
             = (Ret {| status := 200;
                       body := Modified "Messages marked as read" n |}, w')
             ∧ Forall2 (marked c u) (messages w) (messages w')).
Proof.
  split; [apply gateway_mark_read_marks | by apply rest_mark_read_marks].
Qed.

Lemma mark_read_marks_addressee_only_witness :
  JS.truthy_field (Some "a_b") = true ∧ JS.truthy_field (Some "b") = true
  ∧ (∃ w', on_mark_read "s1" (MarkRead.mk (Some "a_b") (Some "b"))
             world_with_hello = (Ret tt, w')
           ∧ Forall2 (marked (Some "a_b") (Some "b"))
               (messages world_with_hello) (messages w'))
  ∧ (∃ n w', MessagesRoutes.POST_mark_read
               (MarkRead.mk (Some "a_b") (Some "b")) world_with_hello
             = (Ret {| status := 200;
                       body := Modified "Messages marked as read" n |}, w')
             ∧ Forall2 (marked (Some "a_b") (Some "b"))
                 (messages world_with_hello) (messages w')).
Proof.
  split; [reflexivity|]. split; [reflexivity|].
  apply (mark_read_marks_addressee_only world_with_hello "s1"
           (Some "a_b") (Some "b")); reflexivity.
Defined.

Lemma gateway_mark_read_twice w socket c u :
  ∃ w1 w2, on_mark_read socket (MarkRead.mk c u) w = (Ret tt, w1)
           ∧ on_mark_read socket (MarkRead.mk c u) w1 = (Ret tt, w2)
           ∧ messages w2 = messages w1.
Proof.
  destruct w. eexists _, _. split; [run_calls; reflexivity|].
  run_calls. rewrite updateMany_twice by apply unread_in_set_read.
  split; reflexivity.
Qed.

(** C8: marking a conversation read is idempotent.  After a first
    [POST /mark-read] for a conversation and a user, a second identical call
    answers success with [modifiedCount = 0] and changes no message; a
    second identical ['mark-read'] event changes no message either. *)
Theorem mark_read_idempotent w socket c u
    (Hc : JS.truthy_field c = true) (Hu : JS.truthy_field u = true) :
  (∃ n w1 w2,
     MessagesRoutes.POST_mark_read (MarkRead.mk c u) w
     = (Ret {| status := 200;
               body := Modified "Messages marked as read" n |}, w1)
     ∧ MessagesRoutes.POST_mark_read (MarkRead.mk c u) w1
       = (Ret {| status := 200;
                 body := Modified "Messages marked as read" 0 |}, w2)
     ∧ messages w2 = messages w1)
  ∧ (∃ w1 w2, on_mark_read socket (MarkRead.mk c u) w = (Ret tt, w1)
              ∧ on_mark_read socket (MarkRead.mk c u) w1 = (Ret tt, w2)
              ∧ messages w2 = messages w1).
Proof.
  split; [|apply gateway_mark_read_twice].
  destruct w. eexists _, _, _.
  split; [run_calls; rewrite Hc, Hu; reflexivity|].
  run_calls. rewrite Hc, Hu. cbn [negb orb].
  rewrite updateMany_twice by apply unread_in_set_read_updated.
  split; reflexivity.
Qed.

Lemma mark_read_idempotent_witness :
  JS.truthy_field (Some "a_b") = true ∧ JS.truthy_field (Some "b") = true
  ∧ (∃ n w1 w2,
       MessagesRoutes.POST_mark_read (MarkRead.mk (Some "a_b") (Some "b"))
         world_with_hello
       = (Ret {| status := 200;
                 body := Modified "Messages marked as read" n |}, w1)
       ∧ MessagesRoutes.POST_mark_read (MarkRead.mk (Some "a_b") (Some "b"))
           w1
         = (Ret {| status := 200;
                   body := Modified "Messages marked as read" 0 |}, w2)
       ∧ messages w2 = messages w1)
  ∧ (∃ w1 w2,
       on_mark_read "s1" (MarkRead.mk (Some "a_b") (Some "b"))
         world_with_hello = (Ret tt, w1)
       ∧ on_mark_read "s1" (MarkRead.mk (Some "a_b") (Some "b")) w1
         = (Ret tt, w2)
       ∧ messages w2 = messages w1).
Proof.
  split; [reflexivity|]. split; [reflexivity|].
  apply (mark_read_idempotent world_with_hello "s1" (Some "a_b") (Some "b"));
    reflexivity.
Defined.

Example mark_read_twice_counts :
  (MessagesRoutes.POST_mark_read (MarkRead.mk (Some "a_b") (Some "b"))
     world_with_hello).1
  = Ret {| status := 200; body := Modified "Messages marked as read" 1 |}.
Proof. reflexivity. Qed.

(** ** Marking all notifications read *)

(** C7: after all the notifications of a user are marked read, the gateway
    emits the count 0 to the user's notification room, and the number of
    unread notifications of the user, counted again over the store by
    [getUnreadCount] or [GET /unread-count/:userId], is 0. *)
Theorem mark_all_read_leaves_none_unread w socket (u : field) (uid : string) :
  (∃ w1 w2,
     on_mark_all_notifications_read socket u w = (Ret tt, w1)
     ∧ emitted w1
       = (emitted w
          ++ [{| target := ToRoom (Some (notification_room u));
                 event := "notification-count";
                 payload := PCount 0;
                 delivered_to :=
                   members w (Some (notification_room u)) |}])%list
     ∧ countDocuments (unread_of u) (notifications w1) = 0
     ∧ getUnreadCount u w1 = (Ret 0, w2))
  ∧ (∃ n w1 w2,
       NotificationsRoutes.PUT_mark_all_read uid w
       = (Ret {| status := 200;
                 body := Modified "All notifications marked as read" n |}, w1)
       ∧ countDocuments (unread_of (Some uid)) (notifications w1) = 0
       ∧ NotificationsRoutes.GET_unread_count uid w1
         = (Ret {| status := 200; body := Count 0 |}, w2)).
Proof.
  split.
  - destruct w. eexists _, _. split; [run_calls; reflexivity|].
    run_calls. rewrite countDocuments_settled by apply unread_of_set_seen.
    repeat split; reflexivity.
  - destruct w. eexists _, _, _. split; [run_calls; reflexivity|].
    run_calls. rewrite countDocuments_settled by apply unread_of_set_seen.
    repeat split; reflexivity.
Qed.

(** ** Sending a message through the gateway *)

(** Connection [s1] has joined room [a_b] and sends into it: it is handed
    ['receive-message'] as well as ['message-sent'], in both revisions of the
    gateway. *)
Example sender_gets_both :
  (λ e, (event e, bool_decide ("s1" ∈ delivered_to e)))
    <$> emitted (on_send_message "s1" hi_from_a world_s1_joined).2
  = [("receive-message", true); ("message-sent", true)]
  ∧ (λ e, (event e, bool_decide ("s1" ∈ delivered_to e)))
      <$> emitted (ServerJs.on_send_message "s1" hi_from_a world_s1_joined).2
    = [("receive-message", true); ("message-sent", true)].
Proof. split; vm_compute; reflexivity. Qed.

Lemma index_send_message_fanout w socket cid sid rid c :
  ∃ m pre w',
    on_send_message socket (SendMessage.mk cid sid rid (Some c)) w
    = (Ret tt, w')
    ∧ messages w' = (messages w ++ [m])%list
    ∧ emitted w'
      = (emitted w ++ pre
         ++ [{| target := ToRoom cid; event := "receive-message";
                payload := PMessage m; delivered_to := members w cid |};
             {| target := ToSelf socket; event := "message-sent";
                payload := PMessage m; delivered_to := {[socket]} |}])%list
    ∧ Forall (λ e, event e = "new-notification"
                   ∨ event e = "notification-count") pre.
Proof.
  destruct w. run.
  destruct (option_bind _ _ _ _) as [handle|]; [destruct (JS.truthy handle)|].
  - eexists _, [_; _], _. do 2 (split; [reflexivity|]). split.
    + cbn [emitted]. rewrite <- !app_assoc. reflexivity.
    + constructor; [by left|]. constructor; [by right|]. constructor.
  - eexists _, [], _. do 2 (split; [reflexivity|]). split; [|constructor].
    cbn [emitted]. rewrite <- !app_assoc. reflexivity.
  - eexists _, [], _. do 2 (split; [reflexivity|]). split; [|constructor].
    cbn [emitted]. rewrite <- !app_assoc. reflexivity.
Qed.

Lemma server_send_message_fanout w socket cid sid rid c :
  ∃ m post w',
    ServerJs.on_send_message socket (SendMessage.mk cid sid rid (Some c)) w
    = (Ret tt, w')
    ∧ messages w' = (messages w ++ [m])%list
    ∧ emitted w'
      = (emitted w
         ++ [{| target := ToRoom cid; event := "receive-message";
                payload := PMessage m; delivered_to := members w cid |};
             {| target := ToSelf socket; event := "message-sent";
                payload := PMessage m; delivered_to := {[socket]} |}]
         ++ post)%list
    ∧ Forall (λ e, event e = "new-message-notification") post.
Proof.
  destruct w. run.
  destruct (option_bind _ _ _ _) as [handle|]; [destruct (JS.truthy handle)|].
  - eexists _, [_], _. do 2 (split; [reflexivity|]). split.
    + cbn [emitted]. rewrite <- !app_assoc. reflexivity.
    + by repeat constructor.
  - eexists _, [], _. do 2 (split; [reflexivity|]). split; [|constructor].
    cbn [emitted]. rewrite <- !app_assoc. reflexivity.
  - eexists _, [], _. do 2 (split; [reflexivity|]). split; [|constructor].
    cbn [emitted]. rewrite <- !app_assoc. reflexivity.
Qed.

(** C1, as the code has it: for every ['send-message'] event that carries a
    content string, ['receive-message'] is delivered to every connection
    joined to the conversation room at that time, the originating connection
    included when it has joined, and ['message-sent'] is delivered to the
    originating connection alone.  The only other emissions of the event go
    to the receiver: ['new-notification'] and ['notification-count'] in
    [index.js], ['new-message-notification'] in [server.js]. *)
Theorem send_message_fanout w socket cid sid rid c :
  (∃ m pre w',
     on_send_message socket (SendMessage.mk cid sid rid (Some c)) w
     = (Ret tt, w')
     ∧ messages w' = (messages w ++ [m])%list
     ∧ emitted w'
       = (emitted w ++ pre
          ++ [{| target := ToRoom cid; event := "receive-message";
                 payload := PMessage m; delivered_to := members w cid |};
              {| target := ToSelf socket; event := "message-sent";
                 payload := PMessage m; delivered_to := {[socket]} |}])%list
     ∧ Forall (λ e, event e = "new-notification"
                    ∨ event e = "notification-count") pre)
  ∧ (∃ m post w',
       ServerJs.on_send_message socket (SendMessage.mk cid sid rid (Some c)) w
       = (Ret tt, w')
       ∧ messages w' = (messages w ++ [m])%list
       ∧ emitted w'
         = (emitted w
            ++ [{| target := ToRoom cid; event := "receive-message";
                   payload := PMessage m; delivered_to := members w cid |};
                {| target := ToSelf socket; event := "message-sent";
                   payload := PMessage m; delivered_to := {[socket]} |}]
            ++ post)%list
       ∧ Forall (λ e, event e = "new-message-notification") post).
Proof.
  split; [apply index_send_message_fanout | apply server_send_message_fanout].
Qed.

(** The receiver [b] has no entry in the registry and the event carries no
    content: the message is stored, the notification is not, and the sender
    is told ['message-error']. *)
Example offline_receiver_without_content :
  Map_get "b" (onlineUsers world_s1_joined) = None
  ∧ (let w' := (on_send_message "s1" no_content_from_a world_s1_joined).2 in
     (length (messages w'), notifications w', event <$> emitted w')
     = (1, notifications world_s1_joined, ["message-error"])).
Proof. split; vm_compute; reflexivity. Qed.

(** C5, as the code has it: when a ['send-message'] event carries a content
    string and its receiver has no entry in the presence registry, the
    notification for the receiver is persisted all the same, and nothing is
    emitted but ['receive-message'] to the conversation room and
    ['message-sent'] to the sender: no ['new-notification'] and no
    ['notification-count'] goes out. *)
Theorem offline_receiver_store_and_forward w socket cid sid rid c
    (Hoff : unregistered w rid) :
  ∃ m n w',
    on_send_message socket (SendMessage.mk cid sid rid (Some c)) w
    = (Ret tt, w')
    ∧ notifications w' = (notifications w ++ [n])%list
    ∧ Notification.userId n = rid
    ∧ Notification.type n = "new_message"
    ∧ Notification.targetId n = cid
    ∧ Notification.read n = false
    ∧ emitted w'
      = (emitted w
         ++ [{| target := ToRoom cid; event := "receive-message";
                payload := PMessage m; delivered_to := members w cid |};
             {| target := ToSelf socket; event := "message-sent";
                payload := PMessage m; delivered_to := {[socket]} |}])%list.
Proof.
  destruct w. run.
  assert (option_bind _ _ (λ k, Map_get k onlineUsers0) rid = None) as ->.
  { destruct rid as [k|]; [apply (Hoff k eq_refl) | reflexivity]. }
  eexists _, _, _. do 6 (split; [reflexivity|]).
  cbn [emitted]. rewrite <- !app_assoc. reflexivity.
Qed.

Lemma offline_receiver_store_and_forward_witness :
  unregistered world_s1_joined (Some "b")
  ∧ ∃ m n w',
      on_send_message "s1" hi_from_a world_s1_joined = (Ret tt, w')
      ∧ notifications w' = (notifications world_s1_joined ++ [n])%list
      ∧ Notification.userId n = Some "b"
      ∧ Notification.type n = "new_message"
      ∧ Notification.targetId n = Some "a_b"
      ∧ Notification.read n = false
      ∧ emitted w'
        = (emitted world_s1_joined
           ++ [{| target := ToRoom (Some "a_b"); event := "receive-message";
                  payload := PMessage m;
                  delivered_to := members world_s1_joined (Some "a_b") |};
               {| target := ToSelf "s1"; event := "message-sent";
                  payload := PMessage m; delivered_to := {["s1"]} |}])%list.
Proof.
  assert (unregistered world_s1_joined (Some "b")) as Hoff.
  { intros k _. reflexivity. }
  split; [exact Hoff|].
  exact (offline_receiver_store_and_forward world_s1_joined "s1"
           (Some "a_b") (Some "a") (Some "b") "hi" Hoff).
Defined.

(** C3, the gateway side: a ['send-message'] event without content is not
    refused before the store is touched.  The message is inserted with no
    content, the notification is not, and the sender is told
    ['message-error']. *)
Theorem gateway_send_without_content w socket cid sid rid :
  ∃ m w',
    on_send_message socket (SendMessage.mk cid sid rid None) w = (Ret tt, w')
    ∧ messages w' = (messages w ++ [m])%list
    ∧ Message.content m = None
    ∧ notifications w' = notifications w
    ∧ emitted w'
      = (emitted w
         ++ [{| target := ToSelf socket; event := "message-error";
                payload := PError "Failed to send message";
                delivered_to := {[socket]} |}])%list.
Proof.
  destruct w. run. eexists _, _. repeat split; reflexivity.
Qed.

Example gateway_send_without_content_run :
  let w' := (on_send_message "s1" no_content_from_a world_s1_joined).2 in
  (length (messages w'), length (notifications w'),
   event <$> emitted w', store_log w')
  = (1, 0, ["message-error"], [(Write, Messages); (Read, Users)]).
Proof. vm_compute. reflexivity. Qed.

(** The REST side of C3: [POST /send] refuses a body with a missing or empty
    field, or with content that is only white space, before any store call:
    the world is as it was. *)
Lemma rest_send_validates w cid sid rid content :
  JS.truthy_field cid && JS.truthy_field sid && JS.truthy_field rid
  && JS.truthy_field (JS.trim <$> content) = false →
  MessagesRoutes.POST_send (SendMessage.mk cid sid rid content) w
  = (Ret {| status := 400; body := Failure "Missing required fields" |}, w).
Proof.
  intros Hbad. destruct w. run.
  destruct (JS.truthy_field cid), (JS.truthy_field sid),
    (JS.truthy_field rid), (JS.truthy_field _); try discriminate Hbad;
    reflexivity.
Qed.

(** ** Fetching a conversation *)

(** A fetch of conversation [a_b] with userId [c] is refused: the unread
    message addressed to [c] in that conversation stays unread.  A fetch of
    conversation [_b] with an empty userId is answered, and the [if (userId)]
    guard skips the update: the unread message addressed to the empty id
    stays unread. *)
Example outsider_fetch_marks_nothing :
  unread_in (Some "a_b") (Some "c") stray = true
  ∧ (let '(r, w') := MessagesRoutes.GET_conversation "a_b" (Some "c") None
                       None world_with_stray in
     (r, messages w'))
    = (Ret {| status := 403;
              body := Failure "Access denied to this conversation" |},
       [stray])
  ∧ unread_in (Some "_b") (Some "") nameless = true
  ∧ (let '(r, w') := MessagesRoutes.GET_conversation "_b" (Some "") None
                       None world_with_nameless in
     (r, messages w'))
    = (Ret {| status := 200; body := Page [nameless] false |}, [nameless]).
Proof. repeat split; vm_compute; reflexivity. Qed.

(** C9, as the code has it: [GET /conversation/:conversationId] is not
    read-only.  Whenever the userId supplied is not empty and is one of the
    first two parts of the conversationId, the fetch answers 200 and marks
    every unread message of the conversation addressed to that user as read,
    with a readAt date; messages addressed to anybody else are unchanged. *)
Theorem fetch_marks_read w cid uid limit before
    (Huid : JS.truthy uid = true)
    (Hin : JS.includes
             [JS.split "_" cid !! 0%nat; JS.split "_" cid !! 1%nat] (Some uid)
           = true) :
  ∃ page more w',
    MessagesRoutes.GET_conversation cid (Some uid) limit before w
    = (Ret {| status := 200; body := Page page more |}, w')
    ∧ Forall2 (marked (Some cid) (Some uid)) (messages w) (messages w').
Proof.
  destruct w. run. cbn [JS.truthy_field]. rewrite Huid.
  destruct before; cbv beta iota zeta; rewrite Hin; cbn [negb];
    (eexists _, _, _; split; [reflexivity|]);
    apply Forall2_updateMany; intros m; apply marked_step;
    intros m'; cbn; eauto.
Qed.

Lemma fetch_marks_read_witness :
  JS.truthy "b" = true
  ∧ JS.includes [JS.split "_" "a_b" !! 0%nat; JS.split "_" "a_b" !! 1%nat]
      (Some "b") = true
  ∧ ∃ page more w',
      MessagesRoutes.GET_conversation "a_b" (Some "b") None None
        world_with_hello
      = (Ret {| status := 200; body := Page page more |}, w')
      ∧ Forall2 (marked (Some "a_b") (Some "b"))
          (messages world_with_hello) (messages w').
Proof.
  split; [reflexivity|]. split; [reflexivity|].
  apply (fetch_marks_read world_with_hello "a_b" "b" None None); reflexivity.
Defined.

Example fetch_marks_hello :
  Message.read
  <$> messages (MessagesRoutes.GET_conversation "a_b" (Some "b") None None
                  world_with_hello).2
  = [true].
Proof. vm_compute. reflexivity. Qed.

(** ** Marking one notification read *)

Lemma set_seen_fixed now n :
  set_seen now n = n ↔
  Notification.read n = true ∧ Notification.readAt n = Some now.
Proof.
  destruct n; unfold set_seen; cbn. split.
  - intros [= <- <-]. done.
  - intros [-> ->]. done.
Qed.

Lemma changes_set_seen now n :
  changes (set_seen now) n = false ↔
  Notification.read n = true ∧ Notification.readAt n = Some now.
Proof.
  unfold changes. rewrite bool_decide_eq_false, <- set_seen_fixed.
  split; [apply dec_stable | tauto].
Qed.

(** A notification that its owner read at time 5 is marked again at time
    1000: the update rewrites readAt, so it modifies the document and the
    answer is 200. *)
Example read_again_succeeds :
  findOne (owned_by 7 (Some "u")) (notifications world_seen) = Some seen
  ∧ Notification.read seen = true
  ∧ (NotificationsRoutes.PUT_mark_read (Some 7) (Some "u") world_seen).1
    = Ret {| status := 200;
             body := Counted "Notification marked as read" 0 |}.
Proof. repeat split; vm_compute; reflexivity. Qed.

(** C10, as the code has it: [PUT /mark-read/:notificationId] with a valid
    id answers 404 'Notification not found' exactly when the update modifies
    no document, and 200 otherwise.  The update modifies no document when no
    notification has both the id and the user, or when the one that has is
    already read with a readAt equal to the date of the request.  An
    already-read notification whose readAt is another date gets the new
    date and the answer is 200. *)
Theorem mark_notification_read_not_found w id uid :
  let now := clock w (date_calls w) in
  let hit := findOne (owned_by id uid) (notifications w) in
  ∃ r w',
    NotificationsRoutes.PUT_mark_read (Some id) uid w = (Ret r, w')
    ∧ (r = {| status := 404; body := Failure "Notification not found" |}
       ∨ ∃ n, r = {| status := 200;
                     body := Counted "Notification marked as read" n |})
    ∧ (status r = 404 ↔
       modifiedCount
         (updateOne (owned_by id uid) (set_seen now) (notifications w)).2 = 0)
    ∧ (status r = 404 ↔
       hit = None
       ∨ ∃ n, hit = Some n ∧ Notification.read n = true
              ∧ Notification.readAt n = Some now).
Proof.
  destruct w. run.
  destruct (findOne _ _) as [n|] eqn:Hhit; cbv beta iota zeta.
  - destruct (changes _ n) eqn:Hch; cbn; eexists _, _;
      (split; [reflexivity|]); cbn.
    + split; [right; eauto|]. split; [split; discriminate|].
      split; [discriminate|]. intros [|(n' & [= <-] & Hn)]; [done|].
      apply changes_set_seen in Hn. congruence.
    + split; [by left|]. split; [done|]. split; [|done].
      intros _. right. exists n. split; [done|].
      by apply changes_set_seen in Hch.
  - cbn. eexists _, _. split; [reflexivity|]. cbn.
    split; [by left|]. split; [done|]. split; auto.
Qed.

(* ================================================================= *)
(** * Further properties of the handlers *)

(** ** The presence Map *)

Lemma Map_get_set_eq k v m : Map_get k (Map_set k v m) = Some v.
Proof.
  induction m as [|[k' v'] m IH]; cbn.
  - by rewrite bool_decide_eq_true_2.
  - destruct (bool_decide (k' = k)) eqn:E; cbn; rewrite ?E; [|done].
    by rewrite bool_decide_eq_true_2.
Qed.

Lemma Map_get_set_ne k k' v m :
  k' ≠ k → Map_get k' (Map_set k v m) = Map_get k' m.
Proof.
  intros Hne. induction m as [|[k0 v0] m IH]; cbn.
  - by rewrite bool_decide_eq_false_2.
  - destruct (bool_decide (k0 = k)) eqn:E; cbn.
    + apply bool_decide_eq_true in E as ->.
      rewrite !bool_decide_eq_false_2; done.
    + by rewrite IH.
Qed.

Lemma Map_set_keys k v m :
  (Map_set k v m).*1
  = if bool_decide (k ∈ m.*1) then m.*1 else (m.*1 ++ [k])%list.
Proof.
  induction m as [|[k' v'] m IH]; cbn; [done|].
  destruct (bool_decide (k' = k)) eqn:E; cbn.
  - apply bool_decide_eq_true in E as ->.
    rewrite bool_decide_eq_true_2; [done|left].
  - apply bool_decide_eq_false in E. rewrite IH.
    destruct (bool_decide (k ∈ m.*1)) eqn:E'.
    + apply bool_decide_eq_true in E'.
      rewrite bool_decide_eq_true_2; [done|by right].
    + apply bool_decide_eq_false in E'.
      rewrite bool_decide_eq_false_2; [done|].
      rewrite elem_of_cons. naive_solver.
Qed.

Lemma Map_set_NoDup k v m : NoDup m.*1 → NoDup (Map_set k v m).*1.
Proof.
  intros Hm. rewrite Map_set_keys. case_bool_decide as Hk; [done|].
  apply NoDup_app. split; [done|]. split; [|apply NoDup_singleton].
  intros x Hx Hx'. apply list_elem_of_singleton in Hx'. by subst.
Qed.

Lemma Map_delete_keys_sub k m : (Map_delete k m).*1 `sublist_of` m.*1.
Proof.
  induction m as [|[k' v'] m IH]; cbn; [done|].
  destruct (bool_decide (k' = k)); cbn.
  - by apply sublist_cons.
  - by apply sublist_skip.
Qed.

Lemma Map_delete_NoDup k m : NoDup m.*1 → NoDup (Map_delete k m).*1.
Proof. intros Hm. eapply sublist_NoDup; [done|apply Map_delete_keys_sub]. Qed.

Lemma Map_get_None k m : k ∉ m.*1 → Map_get k m = None.
Proof.
  induction m as [|[k' v'] m IH]; cbn; [done|].
  rewrite not_elem_of_cons. intros [Hne Hk].
  by rewrite bool_decide_eq_false_2, IH.
Qed.

Lemma Map_get_delete_eq k m : NoDup m.*1 → Map_get k (Map_delete k m) = None.
Proof.
  induction m as [|[k' v'] m IH]; cbn; [done|].
  rewrite NoDup_cons. intros [Hk' Hm].
  destruct (bool_decide (k' = k)) eqn:E; cbn.
  - apply bool_decide_eq_true in E as ->. by apply Map_get_None.
  - rewrite E. by apply IH.
Qed.

Lemma Map_get_delete_ne k k' m :
  k' ≠ k → Map_get k' (Map_delete k m) = Map_get k' m.
Proof.
  intros Hne. induction m as [|[k0 v0] m IH]; cbn; [done|].
  destruct (bool_decide (k0 = k)) eqn:E; cbn.
  - apply bool_decide_eq_true in E as ->.
    by rewrite bool_decide_eq_false_2.
  - by rewrite IH.
Qed.

Lemma registered_as_get socket u m :
  NoDup m.*1 → registered_as socket m = Some u → Map_get u m = Some socket.
Proof.
  induction m as [|[k v] m IH]; cbn; [done|].
  rewrite NoDup_cons. intros [Hk Hm].
  destruct (bool_decide (v = socket)) eqn:E.
  - apply bool_decide_eq_true in E as ->. intros [= ->].
    by rewrite bool_decide_eq_true_2.
  - intros Hreg. specialize (IH Hm Hreg).
    destruct (bool_decide (k = u)) eqn:E'; [|done].
    apply bool_decide_eq_true in E' as ->.
    destruct Hk. clear -IH. induction m as [|[k v'] m IHm]; [done|].
    cbn in *. destruct (bool_decide (k = u)) eqn:E.
    + apply bool_decide_eq_true in E as ->. left.
    + right. auto.
Qed.

Lemma Map_set_set k v v' m : Map_set k v' (Map_set k v m) = Map_set k v' m.
Proof.
  induction m as [|[k0 v0] m IH]; cbn.
  - by rewrite bool_decide_eq_true_2.
  - destruct (bool_decide (k0 = k)) eqn:E; cbn.
    + by rewrite bool_decide_eq_true_2.
    + by rewrite E, IH.
Qed.

Lemma registered_as_set_other socket k v m :
  v ≠ socket → registered_as socket m = None →
  registered_as socket (Map_set k v m) = None.
Proof.
  intros Hne. induction m as [|[k0 v0] m IH]; cbn.
  - by rewrite bool_decide_eq_false_2.
  - destruct (bool_decide (v0 = socket)) eqn:E; [done|]. intros Hm.
    destruct (bool_decide (k0 = k)); cbn.
    + by rewrite bool_decide_eq_false_2.
    + rewrite E. auto.
Qed.

(** ** Presence: announcing and disconnecting *)

(** X1: after ['user-online'] the registry maps the user to the announcing
    connection and every other user as before; the connection is in the
    user's notification room; the announcement is broadcast to the live
    connections that are not in the room named by the caller's id, and the
    caller alone is sent the number of unread notifications of the user. *)
Theorem user_online_registers w socket userId :
  ∃ w',
    on_user_online socket userId w = (Ret tt, w')
    ∧ Map_get userId (onlineUsers w') = Some socket
    ∧ (∀ u, u ≠ userId →
         Map_get u (onlineUsers w') = Map_get u (onlineUsers w))
    ∧ socket ∈ members w' (Some (notification_room (Some userId)))
    ∧ notifications w' = notifications w
    ∧ emitted w'
      = (emitted w
         ++ [{| target := Broadcast socket; event := "user-status-changed";
                payload := PStatus userId "online";
                delivered_to := sockets w ∖ members w (Some socket) |};
             {| target := ToSelf socket; event := "notification-count";
                payload := PCount (countDocuments (unread_of (Some userId))
                                     (notifications w));
                delivered_to := {[socket]} |}])%list.
Proof.
  destruct w as [us cs ms ns oid lg ou ss rs em clk dc].
  run_all. eexists. split; [reflexivity|]. cbn.
  split; [apply Map_get_set_eq|].
  split; [intros u Hu; by apply Map_get_set_ne|].
  split.
  { unfold members. cbn. rewrite lookup_total_insert_eq. set_solver. }
  split; [done|]. by rewrite <- app_assoc.
Qed.

(** X2: the keys of the presence Map stay distinct under ['user-online'] and
    ['disconnect'], the two handlers that write it. *)
Theorem presence_keys_distinct w socket userId
    (Hkeys : NoDup (onlineUsers w).*1) :
  NoDup (onlineUsers (on_user_online socket userId w).2).*1
  ∧ NoDup (onlineUsers (on_disconnect socket w).2).*1.
Proof.
  destruct w as [us cs ms ns oid lg ou ss rs em clk dc].
  cbn in Hkeys. split; run_all; cbn.
  - by apply Map_set_NoDup.
  - destruct (registered_as socket _); cbn; [|done].
    by apply Map_delete_NoDup.
Qed.

(** X3: when a connection that holds no entry of the presence Map
    disconnects, the Map is left as it is and nothing is emitted; the
    connection is gone from the live connections and from every room. *)
Theorem disconnect_unregistered w socket
    (Hnone : registered_as socket (onlineUsers w) = None) :
  ∃ w',
    on_disconnect socket w = (Ret tt, w')
    ∧ onlineUsers w' = onlineUsers w
    ∧ emitted w' = emitted w
    ∧ (socket ∉ sockets w')
    ∧ ∀ room, socket ∉ members w' room.
Proof.
  destruct w as [us cs ms ns oid lg ou ss rs em clk dc].
  cbn in Hnone. run_all. rewrite Hnone. cbv beta iota zeta.
  eexists. split; [reflexivity|]. cbn.
  do 2 (split; [done|]). split; [set_solver|].
  intros [room|]; unfold members; cbn; [|set_solver].
  rewrite lookup_total_alt, lookup_fmap.
  destruct (_ !! room); cbn; set_solver.
Qed.

(** X4: when the connection registered for user [u] disconnects, the entry
    of [u] is removed, every other entry stays, and the offline status of
    [u] is broadcast to the live connections other than the one that went
    and than those that had joined the room named by its id. *)
Theorem disconnect_registered w socket u
    (Hkeys : NoDup (onlineUsers w).*1)
    (Hreg : registered_as socket (onlineUsers w) = Some u) :
  ∃ w',
    on_disconnect socket w = (Ret tt, w')
    ∧ Map_get u (onlineUsers w) = Some socket
    ∧ Map_get u (onlineUsers w') = None
    ∧ (∀ u', u' ≠ u →
         Map_get u' (onlineUsers w') = Map_get u' (onlineUsers w))
    ∧ emitted w'
      = (emitted w
         ++ [{| target := Broadcast socket; event := "user-status-changed";
                payload := PStatus u "offline";
                delivered_to :=
                  sockets w ∖ ({[socket]} ∪ members w (Some socket)) |}])%list.
Proof.
  destruct w as [us cs ms ns oid lg ou ss rs em clk dc].
  cbn in Hkeys, Hreg. run_all. rewrite Hreg.
  cbv beta iota zeta. eexists. split; [reflexivity|]. cbn.
  split; [by apply registered_as_get|].
  split; [by apply Map_get_delete_eq|].
  split; [intros u' Hu'; by apply Map_get_delete_ne|].
  do 3 f_equal. unfold members. cbn.
  rewrite !lookup_total_alt, lookup_fmap.
  destruct (rs !! socket); cbn; set_solver.
Qed.

(** X5: the last connection wins.  When a user announces from connection
    [s1] and then from another connection [s2], and [s1] disconnects, the
    user is still registered, with [s2], and the disconnect emits nothing:
    no offline status goes out. *)
Theorem last_connection_wins w s1 s2 u
    (Hne : s1 ≠ s2)
    (Hfresh : registered_as s1 (onlineUsers w) = None) :
  let w1 := (on_user_online s1 u w).2 in
  let w2 := (on_user_online s2 u w1).2 in
  ∃ w3,
    on_disconnect s1 w2 = (Ret tt, w3)
    ∧ Map_get u (onlineUsers w3) = Some s2
    ∧ emitted w3 = emitted w2.
Proof.
  destruct w as [us cs ms ns oid lg ou ss rs em clk dc].
  cbn in Hfresh. run_all. cbn.
  rewrite Map_set_set.
  rewrite registered_as_set_other by done. cbv beta iota zeta.
  eexists. split; [reflexivity|]. cbn. split; [apply Map_get_set_eq|done].
Qed.

(** ** Rooms *)

(** X6: joining a conversation adds the connection to that room and to no
    other; leaving takes it out of that room and out of no other.  Joining a
    room twice is joining it once, and leaving a room the connection is not
    in changes nobody's membership. *)
Theorem join_leave_membership w socket room :
  let joined := (on_join_conversation socket room w).2 in
  let left := (on_leave_conversation socket room w).2 in
  members joined (Some room) = {[socket]} ∪ members w (Some room)
  ∧ members left (Some room) = members w (Some room) ∖ {[socket]}
  ∧ (∀ r, r ≠ room →
       members joined (Some r) = members w (Some r)
       ∧ members left (Some r) = members w (Some r))
  ∧ members (on_join_conversation socket room joined).2 (Some room)
    = members joined (Some room)
  ∧ (socket ∉ members w (Some room) →
     members left (Some room) = members w (Some room)).
Proof.
  destruct w as [us cs ms ns oid lg ou ss rs em clk dc].
  run_all. unfold members. cbn.
  rewrite !lookup_total_insert_eq.
  split; [done|]. split; [done|]. split.
  { intros r Hr. by rewrite !lookup_total_insert_ne. }
  split; set_solver.
Qed.

(** X7: a typing indicator and a ['messages-read'] notice go to the
    connections of the conversation room that are not in the room named by
    the sender's id: a sender that sits in its own room, as it does from its
    connection on, does not get its own notice.  The typing indicator
    touches no store, and marking read makes one store call, the update of
    the messages. *)
Theorem room_notices_except_own_room w socket cid uid flag :
  (∃ w1,
     on_typing socket (Typing.mk cid uid flag) w = (Ret tt, w1)
     ∧ emitted w1
       = (emitted w
          ++ [{| target := ToRoomExcept cid socket; event := "user-typing";
                 payload := PTyping uid flag;
                 delivered_to :=
                   members w cid ∖ members w (Some socket) |}])%list
     ∧ store_log w1 = store_log w
     ∧ messages w1 = messages w
     ∧ notifications w1 = notifications w)
  ∧ (∃ w2,
       on_mark_read socket (MarkRead.mk cid uid) w = (Ret tt, w2)
       ∧ emitted w2
         = (emitted w
            ++ [{| target := ToRoomExcept cid socket;
                   event := "messages-read"; payload := PRead uid;
                   delivered_to :=
                     members w cid ∖ members w (Some socket) |}])%list
       ∧ store_log w2 = (store_log w ++ [(Write, Messages)])%list
       ∧ notifications w2 = notifications w)
  ∧ (socket ∈ members w (Some socket) →
     socket ∉ members w cid ∖ members w (Some socket)).
Proof.
  destruct w as [us cs ms ns oid lg ou ss rs em clk dc].
  split; [|split; [|set_solver]].
  - run_all. eexists. by split.
  - run_all. eexists. by split.
Qed.

(** A connection that has left the room named by its own id gets its own
    typing indicator back. *)
Example own_room_left_gets_own_notice :
  let w := (on_leave_conversation "s1" "s1" world_s1_joined).2 in
  (λ e, (event e, elements (delivered_to e)))
    <$> emitted (on_typing "s1" (Typing.mk (Some "a_b") (Some "a") (Some true))
                   w).2
  = [("user-typing", ["s1"])].
Proof. vm_compute. reflexivity. Qed.

(** ** Sending to a receiver who is online *)

Lemma countDocuments_app {D} (q : D → bool) (l1 l2 : list D) :
  countDocuments q (l1 ++ l2) = countDocuments q l1 + countDocuments q l2.
Proof. unfold countDocuments. by rewrite List.filter_app, length_app. Qed.

Lemma countDocuments_one {D} (q : D → bool) (d : D) :
  q d = true → countDocuments q [d] = 1.
Proof. intros Hq. unfold countDocuments. cbn. by rewrite Hq. Qed.

(** X8: every ['send-message'] event, with or without content, appends
    exactly one message to the store: unread, without readAt, carrying the
    four fields of the payload as they came, the next object id and the
    clock reading. *)
Theorem send_message_persists w socket cid sid rid content :
  ∃ w',
    on_send_message socket (SendMessage.mk cid sid rid content) w
    = (Ret tt, w')
    ∧ messages w'
      = (messages w
         ++ [Message.mk (next_oid w) cid sid rid content
               (clock w (date_calls w)) false None None None])%list.
Proof.
  destruct w as [us cs ms ns oid lg ou ss rs em clk dc].
  run_all. destruct content as [c|]; cbv beta iota zeta.
  - destruct (option_bind _ _ _ _) as [h|]; [destruct (JS.truthy h)|];
      eexists; by split.
  - eexists. by split.
Qed.

(** X9: when a ['send-message'] event carries a content string and its
    receiver is registered with a connection, ['new-notification'] is
    emitted to that connection's own room with the notification just
    stored, and ['notification-count'] to
    the receiver's notification room with the receiver's unread count, which
    is one more than before the event; then come ['receive-message'] and
    ['message-sent']. *)
Theorem online_receiver_is_notified w socket cid sid r c handle
    (Hreg : Map_get r (onlineUsers w) = Some handle)
    (Hid : JS.truthy handle = true) :
  ∃ m n w',
    on_send_message socket (SendMessage.mk cid sid (Some r) (Some c)) w
    = (Ret tt, w')
    ∧ notifications w' = (notifications w ++ [n])%list
    ∧ Notification.userId n = Some r
    ∧ Notification.message n = preview c
    ∧ emitted w'
      = (emitted w
         ++ [{| target := ToRoom (Some handle); event := "new-notification";
                payload := PNotification n;
                delivered_to := members w (Some handle) |};
             {| target := ToRoom (Some (notification_room (Some r)));
                event := "notification-count";
                payload :=
                  PCount (S (countDocuments (unread_of (Some r))
                               (notifications w)));
                delivered_to :=
                  members w (Some (notification_room (Some r))) |};
             {| target := ToRoom cid; event := "receive-message";
                payload := PMessage m; delivered_to := members w cid |};
             {| target := ToSelf socket; event := "message-sent";
                payload := PMessage m; delivered_to := {[socket]} |}])%list.
Proof.
  destruct w as [us cs ms ns oid lg ou ss rs em clk dc].
  cbn in Hreg. run_all. cbn [option_bind]. rewrite Hreg, Hid.
  cbv beta iota zeta. eexists _, _, _. split; [reflexivity|]. cbn.
  do 3 (split; [reflexivity|]).
  rewrite countDocuments_app, countDocuments_one
    by (apply andb_true_iff; split; [by apply bool_decide_eq_true_2|done]).
  rewrite Nat.add_1_r, <- !app_assoc. reflexivity.
Qed.

(** ** One document at a time: [findOne], [updateOne], [deleteOne] *)

Section OneDocument.
Context {D : Type} `{EqDecision D}.
Implicit Types (q : D → bool) (set : D → D) (docs : list D).

Lemma findOne_Some q docs d :
  findOne q docs = Some d →
  ∃ l1 l2, docs = (l1 ++ d :: l2)%list
           ∧ Forall (λ x, q x = false) l1 ∧ q d = true.
Proof.
  unfold findOne. induction docs as [|x docs IH]; cbn; [done|].
  destruct (q x) eqn:E.
  - intros [= ->]. by exists [], docs.
  - intros (l1 & l2 & -> & Hl1 & Hd)%IH.
    exists (x :: l1), l2. split; [done|]. split; [by constructor|done].
Qed.

Lemma findOne_None q docs :
  findOne q docs = None → Forall (λ x, q x = false) docs.
Proof.
  unfold findOne. induction docs as [|x docs IH]; cbn; [constructor|].
  destruct (q x) eqn:E; [done|]. intros Hnone. constructor; auto.
Qed.

Lemma updateOne_docs_at q set l1 d l2 :
  Forall (λ x, q x = false) l1 → q d = true →
  updateOne_docs q set (l1 ++ d :: l2) = (l1 ++ set d :: l2)%list.
Proof.
  intros Hl1 Hd. induction Hl1 as [|x l1 Hx _ IH]; cbn.
  - by rewrite Hd.
  - by rewrite Hx, IH.
Qed.

Lemma updateOne_docs_none q set docs :
  Forall (λ x, q x = false) docs → updateOne_docs q set docs = docs.
Proof.
  induction 1 as [|x l Hx _ IH]; cbn; [done|]. by rewrite Hx, IH.
Qed.

Lemma deleteOne_docs_at q l1 d l2 :
  Forall (λ x, q x = false) l1 → q d = true →
  deleteOne_docs q (l1 ++ d :: l2) = (l1 ++ l2)%list.
Proof.
  intros Hl1 Hd. induction Hl1 as [|x l1 Hx _ IH]; cbn.
  - by rewrite Hd.
  - by rewrite Hx, IH.
Qed.

Lemma deleteOne_docs_none q docs :
  Forall (λ x, q x = false) docs → deleteOne_docs q docs = docs.
Proof.
  induction 1 as [|x l Hx _ IH]; cbn; [done|]. by rewrite Hx, IH.
Qed.

Lemma countDocuments_cons q d docs :
  countDocuments q (d :: docs)
  = (if q d then 1 else 0) + countDocuments q docs.
Proof. unfold countDocuments. cbn. by destruct (q d). Qed.
End OneDocument.

(** What [updateOne] with [$set: { read: true, readAt }] does to the
    collection when it is asked for notification [id] of user [u]. *)
Lemma mark_one_docs id u now docs :
  match findOne (owned_by id u) docs with
  | None => updateOne_docs (owned_by id u) (set_seen now) docs = docs
  | Some n =>
      ∃ l1 l2,
        docs = (l1 ++ n :: l2)%list
        ∧ updateOne_docs (owned_by id u) (set_seen now) docs
          = (l1 ++ set_seen now n :: l2)%list
        ∧ Notification._id n = id ∧ Notification.userId n = u
        ∧ countDocuments (unread_of u)
            (updateOne_docs (owned_by id u) (set_seen now) docs)
          + (if Notification.read n then 0 else 1)
          = countDocuments (unread_of u) docs
  end.
Proof.
  destruct (findOne _ docs) as [n|] eqn:Hhit.
  - apply findOne_Some in Hhit as (l1 & l2 & -> & Hl1 & Hn).
    exists l1, l2. split; [done|].
    rewrite updateOne_docs_at by done. split; [done|].
    unfold owned_by in Hn. apply andb_true_iff in Hn as [Hid Hu].
    apply bool_decide_eq_true in Hid, Hu. do 2 (split; [done|]).
    rewrite !countDocuments_app, !countDocuments_cons.
    rewrite unread_of_set_seen.
    assert (unread_of u n = negb (Notification.read n)) as ->.
    { unfold unread_of. by rewrite bool_decide_eq_true_2. }
    destruct (Notification.read n); cbn; lia.
  - apply updateOne_docs_none. by apply findOne_None.
Qed.

(** ** Marking one notification read *)

(** X10: a ['mark-notification-read'] event with an id that is no ObjectId
    does nothing at all.  With an ObjectId it changes at most the first
    notification that has this id and belongs to the user named in the
    event, and emits to the user's notification room the unread count
    counted over the store after the update: one less than before when that
    notification was unread. *)
Theorem gateway_mark_notification_read w socket id u :
  on_mark_notification_read socket (MarkNotificationRead.mk None u) w
  = (Ret tt, w)
  ∧ ∃ w',
      on_mark_notification_read socket (MarkNotificationRead.mk (Some id) u) w
      = (Ret tt, w')
      ∧ emitted w'
        = (emitted w
           ++ [{| target := ToRoom (Some (notification_room u));
                  event := "notification-count";
                  payload := PCount (countDocuments (unread_of u)
                                       (notifications w'));
                  delivered_to :=
                    members w (Some (notification_room u)) |}])%list
      ∧ match findOne (owned_by id u) (notifications w) with
        | None => notifications w' = notifications w
        | Some n =>
            ∃ l1 l2,
              notifications w = (l1 ++ n :: l2)%list
              ∧ notifications w'
                = (l1 ++ set_seen (clock w (date_calls w)) n :: l2)%list
              ∧ Notification._id n = id ∧ Notification.userId n = u
              ∧ countDocuments (unread_of u) (notifications w')
                + (if Notification.read n then 0 else 1)
                = countDocuments (unread_of u) (notifications w)
        end.
Proof.
  destruct w as [us cs ms ns oid lg ou ss rs em clk dc].
  split; [reflexivity|]. run_all. cbv [updateOne fst snd].
  eexists. split; [reflexivity|]. cbn. split; [reflexivity|].
  apply mark_one_docs.
Qed.

(** X11: [PUT /mark-read/:notificationId] refuses an id that is no ObjectId
    with 400 before any store call.  Otherwise it changes at most the first
    notification that has this id and belongs to the requesting user: a
    request for somebody else's notification answers 404 and leaves the
    store as it was.  The unreadCount of a 200 answer is the user's unread
    count over the store after the update. *)
Theorem rest_mark_notification_read w id u :
  NotificationsRoutes.PUT_mark_read None u w
  = (Ret {| status := 400; body := Failure "Invalid notification ID" |}, w)
  ∧ ∃ r w',
      NotificationsRoutes.PUT_mark_read (Some id) u w = (Ret r, w')
      ∧ (∀ text k, body r = Counted text k →
           k = countDocuments (unread_of u) (notifications w'))
      ∧ match findOne (owned_by id u) (notifications w) with
        | None =>
            r = {| status := 404; body := Failure "Notification not found" |}
            ∧ notifications w' = notifications w
        | Some n =>
            ∃ l1 l2,
              notifications w = (l1 ++ n :: l2)%list
              ∧ notifications w'
                = (l1 ++ set_seen (clock w (date_calls w)) n :: l2)%list
              ∧ Notification._id n = id ∧ Notification.userId n = u
        end.
Proof.
  destruct w as [us cs ms ns oid lg ou ss rs em clk dc].
  split; [reflexivity|]. run_all. cbv [updateOne fst snd].
  pose proof (mark_one_docs id u (clk dc) ns) as Hdocs.
  destruct (findOne _ ns) as [n|] eqn:Hhit; cbv beta iota zeta.
  - destruct Hdocs as (l1 & l2 & Hsplit & Hupd & Hid & Hu & _).
    destruct (changes _ n); cbn; eexists _, _; (split; [reflexivity|]); cbn;
      (split; [by intros ?? [= _ <-] || done|]); eauto 10.
  - cbn. eexists _, _. split; [reflexivity|]. cbn. split; [done|]. done.
Qed.

(** ** Sending and deleting a message over REST *)

(** X12: [POST /send] stores a message only when it answers 201, and then
    exactly one: unread, with the content trimmed and the other fields of
    the body as they came.  With any other answer the messages are as they
    were.  Whatever the answer, the route creates no notification and emits
    nothing. *)
Theorem post_send_effect w cid sid rid content :
  ∃ r w',
    MessagesRoutes.POST_send (SendMessage.mk cid sid rid content) w
    = (Ret r, w')
    ∧ notifications w' = notifications w
    ∧ emitted w' = emitted w
    ∧ ((status r ≠ 201 ∧ messages w' = messages w)
       ∨ ∃ m,
           r = {| status := 201;
                  body := Sent "Message sent successfully" m |}
           ∧ messages w' = (messages w ++ [m])%list
           ∧ m = Message.mk (next_oid w) cid sid rid (JS.trim <$> content)
                   (clock w (date_calls w)) false None
                   (Some (clock w (S (date_calls w))))
                   (Some (clock w (S (S (date_calls w)))))).
Proof.
  destruct w as [us cs ms ns oid lg ou ss rs em clk dc].
  run_all.
  repeat (branch; cbv beta iota zeta);
    eexists _, _; (split; [reflexivity|]); cbn;
    (do 2 (split; [reflexivity|]));
    first [ by left | right; eexists; by repeat split ].
Qed.

(** X13: [DELETE /message/:messageId] removes a message only when it
    answers 200, and then exactly the first message with that id, whose
    sender is the requesting user.  With any other answer, among them the
    403 for a user who is not the sender, the messages are as they were. *)
Theorem delete_message_effect w messageId who :
  ∃ r w',
    MessagesRoutes.DELETE_message messageId who w = (Ret r, w')
    ∧ ((status r ≠ 200 ∧ messages w' = messages w)
       ∨ ∃ id m l1 l2,
           status r = 200
           ∧ messageId = Some id ∧ Message._id m = id
           ∧ is_Some who ∧ Message.senderId m = who
           ∧ messages w = (l1 ++ m :: l2)%list
           ∧ messages w' = (l1 ++ l2)%list
           ∧ Forall (λ x, Message._id x ≠ id) l1).
Proof.
  destruct w as [us cs ms ns oid lg ou ss rs em clk dc].
  run_all. destruct messageId as [id|]; cbv beta iota zeta.
  2: { eexists _, _. split; [reflexivity|]. by left. }
  destruct (findOne _ _) as [m|] eqn:Hhit; cbv beta iota zeta.
  2: { eexists _, _. split; [reflexivity|]. by left. }
  destruct (MessagesRoutes.not_sender m who) eqn:Hown; cbv beta iota zeta.
  { eexists _, _. split; [reflexivity|]. by left. }
  rewrite Hhit. cbn. eexists _, _. split; [reflexivity|]. right. cbn.
  apply findOne_Some in Hhit as (l1 & l2 & -> & Hl1 & Hm).
  apply bool_decide_eq_true in Hm.
  exists id, m, l1, l2. split; [done|]. do 2 (split; [done|]).
  unfold MessagesRoutes.not_sender in Hown.
  destruct (Message.senderId m) as [a|] eqn:Ha, who as [b|]; try done.
  apply negb_false_iff, bool_decide_eq_true in Hown as ->.
  split; [by eexists|]. do 2 (split; [done|]).
  split.
  - apply deleteOne_docs_at; [done|]. by apply bool_decide_eq_true.
  - eapply Forall_impl; [exact Hl1|]. intros x Hx. cbn in Hx.
    by apply bool_decide_eq_false in Hx.
Qed.

(** ** Deleting and creating notifications *)

(** X14: [DELETE /:notificationId] refuses an id that is no ObjectId with
    400 before any store call.  Otherwise it removes the first notification
    that has this id and belongs to the requesting user, and answers 200
    with the user's unread count over what is left; when there is none, as
    for somebody else's notification, it answers 404 and removes
    nothing. *)
Theorem delete_notification_effect w id u :
  NotificationsRoutes.DELETE_notification None u w
  = (Ret {| status := 400; body := Failure "Invalid notification ID" |}, w)
  ∧ ∃ r w',
      NotificationsRoutes.DELETE_notification (Some id) u w = (Ret r, w')
      ∧ match findOne (owned_by id u) (notifications w) with
        | None =>
            r = {| status := 404; body := Failure "Notification not found" |}
            ∧ notifications w' = notifications w
        | Some n =>
            ∃ l1 l2,
              notifications w = (l1 ++ n :: l2)%list
              ∧ notifications w' = (l1 ++ l2)%list
              ∧ Notification._id n = id ∧ Notification.userId n = u
              ∧ r = {| status := 200;
                       body := Counted "Notification deleted"
                                 (countDocuments (unread_of u) (l1 ++ l2)) |}
        end.
Proof.
  destruct w as [us cs ms ns oid lg ou ss rs em clk dc].
  split; [reflexivity|]. run_all.
  destruct (findOne _ _) as [n|] eqn:Hhit; cbn;
    eexists _, _; (split; [reflexivity|]); cbn.
  - apply findOne_Some in Hhit as (l1 & l2 & -> & Hl1 & Hn).
    exists l1, l2. rewrite deleteOne_docs_at by done.
    unfold owned_by in Hn. apply andb_true_iff in Hn as [Hid Hu].
    apply bool_decide_eq_true in Hid, Hu. done.
  - split; [done|]. apply deleteOne_docs_none. by apply findOne_None.
Qed.

Lemma filter_filter_imp {D} (p q : D → bool) (docs : list D) :
  (∀ d, p d = true → q d = true) →
  List.filter p (List.filter q docs) = List.filter p docs.
Proof.
  intros Hpq. induction docs as [|d docs IH]; cbn; [done|].
  destruct (q d) eqn:Eq; cbn.
  - destruct (p d); by rewrite IH.
  - destruct (p d) eqn:Ep; [|done]. apply Hpq in Ep. congruence.
Qed.

Lemma filter_length_split {D} (q : D → bool) (docs : list D) :
  countDocuments q docs + length (List.filter (λ d, negb (q d)) docs)
  = length docs.
Proof.
  unfold countDocuments. induction docs as [|d docs IH]; cbn; [done|].
  destruct (q d); cbn; lia.
Qed.

(** X15: [DELETE /clear-all/:userId] leaves no notification of the user in
    the store and keeps the notifications of every other user, in their
    order; the deletedCount it answers is the number of notifications
    removed. *)
Theorem clear_all_effect w uid :
  ∃ k w',
    NotificationsRoutes.DELETE_clear_all uid w
    = (Ret (200, Cleared "All notifications cleared" k), w')
    ∧ Forall (λ n, Notification.userId n ≠ Some uid) (notifications w')
    ∧ (∀ u, u ≠ Some uid →
         List.filter (of_user u) (notifications w')
         = List.filter (of_user u) (notifications w))
    ∧ k + length (notifications w') = length (notifications w).
Proof.
  destruct w as [us cs ms ns oid lg ou ss rs em clk dc].
  run_all. eexists _, _. split; [reflexivity|]. cbn.
  split; [|split].
  - apply Forall_forall. intros n Hn.
    apply list_elem_of_In, List.filter_In in Hn as [_ Hn].
    apply negb_true_iff, bool_decide_eq_false in Hn. done.
  - intros u Hu. apply filter_filter_imp. intros n Hn.
    apply bool_decide_eq_true in Hn. apply negb_true_iff.
    apply bool_decide_eq_false. congruence.
  - apply filter_length_split.
Qed.

(** X16: [POST /create] refuses a body without userId, type, title or
    message with 400 and touches nothing.  Otherwise it answers 201 and
    appends one notification for that user, unread, so that the user's
    unread count grows by one; without a senderId the sender is named
    'System' and the insertion is the only store call. *)
Theorem create_notification_effect w body :
  if create_ok body then
    ∃ n w',
      NotificationsRoutes.POST_create body w
      = (Ret (201, Created "Notification created" n), w')
      ∧ notifications w' = (notifications w ++ [n])%list
      ∧ Notification.userId n = CreateNotification.userId body
      ∧ Notification.read n = false
      ∧ countDocuments (unread_of (CreateNotification.userId body))
          (notifications w')
        = S (countDocuments (unread_of (CreateNotification.userId body))
               (notifications w))
      ∧ (JS.truthy_field (CreateNotification.senderId body) = false →
         Notification.senderName n = "System"
         ∧ Notification.senderId n = None
         ∧ store_log w' = (store_log w ++ [(Write, Notifications)])%list)
  else
    NotificationsRoutes.POST_create body w
    = (Ret (400, Refused "Missing required fields"), w).
Proof.
  destruct w as [us cs ms ns oid lg ou ss rs em clk dc],
    body as [uid ty ti me sid tid tty].
  unfold create_ok.
  cbn -[countDocuments].
  destruct uid as [uid|], ty as [ty|], ti as [ti|], me as [me|];
    cbn -[countDocuments];
    try reflexivity; try (by rewrite ?andb_false_r).
  run_all.
  destruct (JS.truthy uid), (JS.truthy ty), (JS.truthy ti), (JS.truthy me);
    cbn -[countDocuments]; try reflexivity.
  destruct (JS.truthy_field sid) eqn:Hsid; cbv beta iota zeta;
    eexists _, _; (split; [reflexivity|]); cbn -[countDocuments];
    (do 3 (split; [reflexivity|])).
  - split; [|done]. rewrite countDocuments_app, countDocuments_one; [lia|].
    apply andb_true_iff. split; [by apply bool_decide_eq_true_2|done].
  - split.
    + rewrite countDocuments_app, countDocuments_one; [lia|].
      apply andb_true_iff. split; [by apply bool_decide_eq_true_2|done].
    + intros _. unfold JS.or_null. rewrite Hsid. done.
Qed.

(** ** Accounts of the bulk updates *)

Lemma modified_all {D} `{EqDecision D} (q : D → bool) (set : D → D) docs :
  (∀ d, q d = true → changes set d = true) →
  countDocuments (changes set) (List.filter q docs) = countDocuments q docs.
Proof.
  intros Hq. unfold countDocuments. f_equal.
  induction docs as [|d docs IH]; cbn; [done|].
  destruct (q d) eqn:E; cbn; [|done]. by rewrite Hq, IH.
Qed.

Lemma changes_set_seen_unread u now n :
  unread_of u n = true → changes (set_seen now) n = true.
Proof.
  unfold unread_of, changes. intros [_ Hr%negb_true_iff]%andb_true_iff.
  apply bool_decide_eq_true. intros Heq.
  apply (f_equal Notification.read) in Heq. cbn in Heq. congruence.
Qed.

Lemma changes_set_read_updated c u now now' m :
  unread_in c u m = true → changes (set_read_updated now now') m = true.
Proof.
  intros (_ & _ & Hr)%unread_in_true. unfold changes.
  apply bool_decide_eq_true. intros Heq.
  apply (f_equal Message.read) in Heq. cbn in Heq. congruence.
Qed.

(** What marking all notifications of [u] read does to one notification. *)
Lemma seen_step u now n :
  let n' := if unread_of u n then set_seen now n else n in
  (Notification.userId n ≠ u → n' = n)
  ∧ (Notification.read n = true → n' = n)
  ∧ (Notification.userId n = u → Notification.read n' = true).
Proof.
  unfold unread_of. cbn.
  destruct (bool_decide_reflect (Notification.userId n = u)) as [Hu|Hu],
    (Notification.read n) eqn:Hr; cbn; naive_solver.
Qed.

(** X17: marking all notifications of a user read, by the gateway event or
    by [PUT /mark-all-read/:userId], leaves every notification of another
    user and every notification already read exactly as it was, readAt
    included, and makes every notification of the user read.  The
    modifiedCount of the REST answer is the number of notifications of the
    user that were unread. *)
Theorem mark_all_read_account w socket (u : field) (uid : string) :
  (∃ w',
     on_mark_all_notifications_read socket u w = (Ret tt, w')
     ∧ Forall2 (λ n n',
         (Notification.userId n ≠ u → n' = n)
         ∧ (Notification.read n = true → n' = n)
         ∧ (Notification.userId n = u → Notification.read n' = true))
         (notifications w) (notifications w'))
  ∧ (∃ w',
       NotificationsRoutes.PUT_mark_all_read uid w
       = (Ret {| status := 200;
                 body := Modified "All notifications marked as read"
                           (countDocuments (unread_of (Some uid))
                              (notifications w)) |}, w')
       ∧ Forall2 (λ n n',
           (Notification.userId n ≠ Some uid → n' = n)
           ∧ (Notification.read n = true → n' = n)
           ∧ (Notification.userId n = Some uid → Notification.read n' = true))
           (notifications w) (notifications w')).
Proof.
  destruct w as [us cs ms ns oid lg ou ss rs em clk dc].
  split.
  - run_all. cbv [updateMany fst snd]. eexists. split; [reflexivity|]. cbn.
    apply Forall2_updateMany. intros n. apply seen_step.
  - run_all. cbv [updateMany fst snd].
    rewrite modified_all by (intros n; apply changes_set_seen_unread).
    eexists. split; [reflexivity|]. cbn.
    apply Forall2_updateMany. intros n. apply seen_step.
Qed.

Lemma unread_for_after c u (set : Message.t → Message.t) docs :
  (∀ m, Message.read (set m) = true) →
  countDocuments (unread_for u)
    ((λ m, if unread_in c u m then set m else m) <$> docs)
  + countDocuments (unread_in c u) docs
  = countDocuments (unread_for u) docs.
Proof.
  intros Hset. induction docs as [|m docs IH]; [done|].
  rewrite fmap_cons, !countDocuments_cons.
  destruct (unread_in c u m) eqn:E.
  - apply unread_in_true in E as (_ & Hu & Hr).
    unfold unread_for at 1 3. rewrite Hset, Hr, andb_false_r.
    rewrite bool_decide_eq_true_2 by done. cbn. lia.
  - destruct (unread_for u m); cbn; lia.
Qed.

(** X18: the modifiedCount that [POST /mark-read] answers for a conversation
    and a user is the number of unread messages of that conversation
    addressed to the user, and the user's unread count, as
    [GET /unread-count/:userId] gives it, goes down by exactly that
    number. *)
Theorem mark_read_account w c uid
    (Hc : JS.truthy_field c = true) (Hu : JS.truthy uid = true) :
  ∃ before flipped w1 w2 w3,
    MessagesRoutes.GET_unread_count uid w
    = (Ret {| status := 200; body := Count before |}, w1)
    ∧ MessagesRoutes.POST_mark_read (MarkRead.mk c (Some uid)) w1
      = (Ret {| status := 200;
                body := Modified "Messages marked as read" flipped |}, w2)
    ∧ MessagesRoutes.GET_unread_count uid w2
      = (Ret {| status := 200; body := Count (before - flipped) |}, w3)
    ∧ flipped = countDocuments (unread_in c (Some uid)) (messages w)
    ∧ (flipped ≤ before)%nat.
Proof.
  destruct w as [us cs ms ns oid lg ou ss rs em clk dc].
  eexists _, _, _, _, _.
  split; [run_all; reflexivity|].
  split.
  { run_all. cbv [updateMany fst snd]. cbn [JS.truthy_field].
    rewrite Hc, Hu. cbn [negb orb]. reflexivity. }
  run_all. cbn [modifiedCount].
  rewrite modified_all by (intros m; apply changes_set_read_updated).
  pose proof (unread_for_after c (Some uid)
                (set_read_updated (clk dc) (clk (S dc))) ms
                (λ _, eq_refl)) as Hcount.
  split; [|split; [done|lia]].
  rewrite <- Hcount, Nat.add_sub. reflexivity.
Qed.

(** ** Sorted pages *)

Section Insertion.
Context {A : Type} (key : A → Z).

Lemma insert_by_perm x l : insert_by key x l ≡ₚ x :: l.
Proof.
  induction l as [|y l IH]; cbn; [done|].
  destruct (key x <? key y)%Z; [|done].
  rewrite IH. apply Permutation_swap.
Qed.

Lemma sort_by_perm l : foldr (insert_by key) [] l ≡ₚ l.
Proof.
  induction l as [|x l IH]; cbn; [done|].
  by rewrite insert_by_perm, IH.
Qed.

Lemma insert_by_sorted x l :
  StronglySorted (λ a b, (key b ≤ key a)%Z) l →
  StronglySorted (λ a b, (key b ≤ key a)%Z) (insert_by key x l).
Proof.
  induction 1 as [|y l Hl IH Hy]; cbn; [repeat constructor|].
  destruct (key x <? key y)%Z eqn:E.
  - apply Z.ltb_lt in E. constructor; [done|].
    rewrite insert_by_perm. constructor; [lia|done].
  - apply Z.ltb_ge in E. constructor; [by constructor|].
    constructor; [done|]. eapply Forall_impl; [exact Hy|].
    intros z Hz. cbn in Hz. lia.
Qed.

Lemma sort_by_sorted l :
  StronglySorted (λ a b, (key b ≤ key a)%Z) (foldr (insert_by key) [] l).
Proof.
  induction l as [|x l IH]; cbn; [constructor|]. by apply insert_by_sorted.
Qed.
End Insertion.

Lemma StronglySorted_take {A} (R : relation A) n l :
  StronglySorted R l → StronglySorted R (take n l).
Proof.
  intros Hl. rewrite <- (take_drop n l) in Hl.
  by apply StronglySorted_app_1_l in Hl.
Qed.

Lemma StronglySorted_drop {A} (R : relation A) n l :
  StronglySorted R l → StronglySorted R (drop n l).
Proof.
  intros Hl. rewrite <- (take_drop n l) in Hl.
  by apply StronglySorted_app_1_r in Hl.
Qed.

Lemma StronglySorted_reverse {A} (R : relation A) l :
  StronglySorted R l → StronglySorted (flip R) (reverse l).
Proof.
  induction 1 as [|x l Hl IH Hx]; [constructor|].
  rewrite reverse_cons.
  apply StronglySorted_app_2; try exact IH; try (by repeat constructor).
  intros a b Ha Hb. apply list_elem_of_singleton in Hb as ->.
  rewrite elem_of_reverse in Ha. rewrite Forall_forall in Hx.
  by apply Hx.
Qed.

Lemma insert_desc_by m l :
  MessagesRoutes.insert_desc m l = insert_by Message.timestamp m l.
Proof. induction l as [|m' l IH]; cbn; [done|]. by rewrite IH. Qed.

Lemma sort_desc_by l :
  foldr MessagesRoutes.insert_desc [] l
  = foldr (insert_by Message.timestamp) [] l.
Proof.
  induction l as [|m l IH]; cbn; [done|]. by rewrite IH, insert_desc_by.
Qed.

(** X19: the page that [GET /conversation/:conversationId] answers to a
    participant holds messages of that conversation dated before [before],
    taken from the store as it was before the fetch marked anything read, at
    most as many as the limit, oldest first; hasMore says whether the page
    is as long as the limit. *)
Theorem conversation_page w cid uid limit before
    (Hin : JS.includes
             [JS.split "_" cid !! 0%nat; JS.split "_" cid !! 1%nat] uid
           = true) :
  ∃ page w',
    MessagesRoutes.GET_conversation cid uid limit before w
    = (Ret {| status := 200;
              body := Page page
                        (Z.of_nat (length page) =? page_limit limit)%Z |}, w')
    ∧ Forall (λ m, m ∈ messages w
                   ∧ Message.conversationId m = Some cid
                   ∧ (Message.timestamp m
                      < default (clock w (date_calls w)) before)%Z) page
    ∧ (length page ≤ Z.abs_nat (page_limit limit))%nat
    ∧ StronglySorted (λ a b, (Message.timestamp a ≤ Message.timestamp b)%Z)
        page.
Proof.
  destruct w as [us cs ms ns oid lg ou ss rs em clk dc].
  set (sorted b := foldr MessagesRoutes.insert_desc []
         (List.filter
            (λ m, bool_decide (Message.conversationId m = Some cid)
                  && (Message.timestamp m <? b)%Z) ms)).
  assert (∀ b n,
    let page := reverse (take n (sorted b)) in
    Forall (λ m, m ∈ ms ∧ Message.conversationId m = Some cid
                 ∧ (Message.timestamp m < b)%Z) page
    ∧ (length page ≤ n)%nat
    ∧ StronglySorted (λ a b, (Message.timestamp a ≤ Message.timestamp b)%Z)
        page) as Hpage.
  { intros b n page. subst page sorted. cbn beta. rewrite sort_desc_by.
    split; [|split].
    - apply Forall_forall. intros m Hm.
      rewrite elem_of_reverse in Hm. apply subseteq_take in Hm.
      rewrite sort_by_perm in Hm.
      apply list_elem_of_In, List.filter_In in Hm as [Hm Hq].
      apply andb_true_iff in Hq as [Hc Ht].
      apply bool_decide_eq_true in Hc. apply Z.ltb_lt in Ht.
      by rewrite list_elem_of_In.
    - rewrite length_reverse, length_take. lia.
    - apply (StronglySorted_reverse
               (λ a b, (Message.timestamp b ≤ Message.timestamp a)%Z)).
      apply StronglySorted_take, sort_by_sorted. }
  run_all. cbv [updateMany fst snd]. fold (page_limit limit).
  destruct before as [b|]; cbv beta iota zeta; rewrite Hin; cbn [negb];
    destruct (JS.truthy_field uid); cbv beta iota zeta;
    eexists _, _; (split; [reflexivity|]); cbn [messages default clock
      date_calls]; apply Hpage.
Qed.

(** X20: [GET /user/:userId] only reads: three store reads and no write.
    Its page holds notifications of that user taken from the store, unread
    ones only when [unreadOnly] is ['true'], newest first, and no more than
    the limit unless the limit is 0; total and unreadCount are counted over
    the store, and hasMore says whether offset plus the length of the page
    is below the total. *)
Theorem notifications_page w uid limit offset unreadOnly :
  ∃ page w',
    NotificationsRoutes.GET_user uid limit offset unreadOnly w
    = (Ret (200,
            NotificationPage page
              (countDocuments (NotificationsRoutes.listed uid unreadOnly)
                 (notifications w))
              (countDocuments (unread_of (Some uid)) (notifications w))
              (default 0 offset + length page
               <? countDocuments (NotificationsRoutes.listed uid unreadOnly)
                    (notifications w))%nat), w')
    ∧ notifications w' = notifications w
    ∧ store_log w'
      = (store_log w ++ [(Read, Notifications); (Read, Notifications);
                         (Read, Notifications)])%list
    ∧ Forall (λ n, n ∈ notifications w
                   ∧ Notification.userId n = Some uid
                   ∧ (unreadOnly = Some "true" → Notification.read n = false))
        page
    ∧ (default 20 limit ≠ 0 → length page ≤ default 20 limit)%nat
    ∧ StronglySorted
        (λ a b, (Notification.createdAt b ≤ Notification.createdAt a)%Z) page.
Proof.
  destruct w as [us cs ms ns oid lg ou ss rs em clk dc].
  run_all.
  eexists _, _. split; [reflexivity|]. cbn [notifications store_log].
  split; [done|]. split; [by rewrite <- !app_assoc|].
  set (sorted := foldr (insert_by Notification.createdAt) [] _).
  assert (∀ n, n ∈ sorted →
    n ∈ ns ∧ Notification.userId n = Some uid
    ∧ (unreadOnly = Some "true" → Notification.read n = false)) as Hsorted.
  { intros n Hn. subst sorted. rewrite sort_by_perm in Hn.
    apply list_elem_of_In, List.filter_In in Hn as [Hn Hq].
    unfold NotificationsRoutes.listed, of_user in Hq.
    apply andb_true_iff in Hq as [Hu Hr]. apply bool_decide_eq_true in Hu.
    split; [by apply list_elem_of_In|]. split; [done|].
    intros ->. rewrite bool_decide_eq_true_2 in Hr by done.
    by apply negb_true_iff in Hr. }
  assert (StronglySorted
    (λ a b, (Notification.createdAt b ≤ Notification.createdAt a)%Z) sorted)
    as Hdesc by apply sort_by_sorted.
  destruct (default 20 limit =? 0)%nat eqn:Hl.
  - apply Nat.eqb_eq in Hl. split; [|split; [done|]].
    + apply Forall_forall. intros n Hn. apply Hsorted.
      by apply subseteq_drop in Hn.
    + by apply StronglySorted_drop.
  - split; [|split].
    + apply Forall_forall. intros n Hn. apply Hsorted.
      by apply subseteq_take, subseteq_drop in Hn.
    + intros _. rewrite length_take. lia.
    + by apply StronglySorted_take, StronglySorted_drop.
Qed.

(** ** Splitting and joining identifiers *)

Lemma split_nonempty sep s : JS.split sep s ≠ [].
Proof.
  destruct s as [|c s]; cbn; [done|].
  destruct (Ascii.eqb c sep); [done|]. by destruct (JS.split sep s).
Qed.

(** X21: joining the pieces of a split string with the separator gives the
    string back. *)
Theorem join_split sep s :
  JS.join (String sep EmptyString) (JS.split sep s) = s.
Proof.
  induction s as [|c s IH]; cbn; [done|].
  pose proof (split_nonempty sep s) as Hne.
  destruct (Ascii.eqb_spec c sep) as [->|Hc].
  - destruct (JS.split sep s) as [|h t]; [done|]. cbn in *. by rewrite IH.
  - destruct (JS.split sep s) as [|h t]; [done|].
    destruct t as [|h' t]; cbn in *; by rewrite <- IH.
Qed.

Lemma split_pieces sep s :
  Forall (λ piece, JS.has_char sep piece = false) (JS.split sep s).
Proof.
  induction s as [|c s IH]; cbn; [by repeat constructor|].
  destruct (Ascii.eqb c sep) eqn:E; [by constructor|].
  destruct IH as [|h t Hh Ht].
  - constructor; [cbn; by rewrite E | constructor].
  - constructor; [|done]. cbn. by rewrite E.
Qed.

Lemma split_whole sep s : JS.has_char sep s = false → JS.split sep s = [s].
Proof.
  induction s as [|c s IH]; cbn; [done|].
  destruct (Ascii.eqb c sep); cbn; [done|]. intros Hs. by rewrite IH.
Qed.

Lemma split_app sep a b :
  JS.has_char sep a = false →
  JS.split sep (a ++ String sep b) = a :: JS.split sep b.
Proof.
  induction a as [|c a IH]; intros Ha.
  - change (JS.split sep (String sep b) = "" :: JS.split sep b).
    cbn [JS.split]. by rewrite Ascii.eqb_refl.
  - change (JS.split sep (String c (a ++ String sep b))
            = String c a :: JS.split sep b).
    cbn [JS.split JS.has_char] in *.
    destruct (Ascii.eqb c sep); [done|]. by rewrite IH.
Qed.

Lemma split_pair a b :
  JS.has_char "_" a = false → JS.has_char "_" b = false →
  JS.split "_" (JS.join "_" [a; b]) = [a; b].
Proof.
  intros Ha Hb. cbn [JS.join].
  change ("_" ++ b) with (String "_" b).
  by rewrite split_app, split_whole.
Qed.

Lemma canonicalId_cases a b :
  canonicalId a b = JS.join "_" [a; b] ∨ canonicalId a b = JS.join "_" [b; a].
Proof.
  unfold canonicalId, JS.sort. cbn [foldr JS.sort_insert].
  destruct (String.ltb b a); auto.
Qed.

Lemma canonical_parts a b :
  JS.has_char "_" a = false → JS.has_char "_" b = false →
  JS.split "_" (canonicalId a b) = [a; b]
  ∨ JS.split "_" (canonicalId a b) = [b; a].
Proof.
  intros Ha Hb.
  destruct (canonicalId_cases a b) as [-> | ->];
    [left | right]; by apply split_pair.
Qed.

Lemma canonical_includes a b :
  JS.has_char "_" a = false → JS.has_char "_" b = false →
  JS.includes
    [JS.split "_" (canonicalId a b) !! 0%nat;
     JS.split "_" (canonicalId a b) !! 1%nat] (Some a) = true.
Proof.
  intros Ha Hb. unfold JS.includes. apply bool_decide_eq_true.
  destruct (canonical_parts a b Ha Hb) as [-> | ->]; cbn; set_solver.
Qed.

(** X22: when neither identity contains an underscore, the first two parts
    of the canonical conversation id are the two identities, so that both
    participants pass the access check of
    [GET /conversation/:conversationId], whichever of them the id was
    computed for, and nobody else does. *)
Theorem canonical_id_admits_participants a b
    (Ha : JS.has_char "_" a = false) (Hb : JS.has_char "_" b = false) :
  let parts := JS.split "_" (canonicalId a b) in
  let allowed := [parts !! 0%nat; parts !! 1%nat] in
  JS.includes allowed (Some a) = true
  ∧ JS.includes allowed (Some b) = true
  ∧ ∀ c, c ≠ Some a → c ≠ Some b → JS.includes allowed c = false.
Proof.
  cbn zeta. split; [by apply canonical_includes|]. split.
  - unfold JS.includes. apply bool_decide_eq_true.
    destruct (canonical_parts a b Ha Hb) as [-> | ->]; cbn; set_solver.
  - intros c Hca Hcb. unfold JS.includes. apply bool_decide_eq_false.
    destruct (canonical_parts a b Ha Hb) as [-> | ->]; cbn; set_solver.
Qed.

Lemma canonical_id_admits_participants_witness :
  JS.has_char "_" "alice" = false ∧ JS.has_char "_" "bob" = false
  ∧ (let parts := JS.split "_" (canonicalId "alice" "bob") in
     let allowed := [parts !! 0%nat; parts !! 1%nat] in
     JS.includes allowed (Some "alice") = true
     ∧ JS.includes allowed (Some "bob") = true
     ∧ ∀ c, c ≠ Some "alice" → c ≠ Some "bob" →
            JS.includes allowed c = false).
Proof.
  split; [reflexivity|]. split; [reflexivity|].
  apply (canonical_id_admits_participants "alice" "bob"); reflexivity.
Defined.

(** X23: a user whose id contains an underscore fails the access check of
    every conversation: no part of a split conversationId contains an
    underscore, so [GET /conversation/:conversationId] answers such a user
    403 whatever the conversation, their own included. *)
Theorem underscore_id_is_locked_out w cid uid limit before
    (Huid : JS.has_char "_" uid = true) :
  ∃ w',
    MessagesRoutes.GET_conversation cid (Some uid) limit before w
    = (Ret {| status := 403;
              body := Failure "Access denied to this conversation" |}, w')
    ∧ messages w' = messages w.
Proof.
  assert (JS.includes
            [JS.split "_" cid !! 0%nat; JS.split "_" cid !! 1%nat] (Some uid)
          = false) as Hout.
  { unfold JS.includes. apply bool_decide_eq_false. intros Hin.
    pose proof (split_pieces "_" cid) as Hpieces.
    rewrite Forall_forall in Hpieces.
    assert (uid ∈ JS.split "_" cid) as Hpiece.
    { apply elem_of_cons in Hin as [Hin|Hin];
        [|apply list_elem_of_singleton in Hin];
        symmetry in Hin; by apply list_elem_of_lookup_2 in Hin. }
    apply Hpieces in Hpiece. congruence. }
  destruct w as [us cs ms ns oid lg ou ss rs em clk dc].
  run_all.
  destruct before; cbv beta iota zeta; rewrite Hout; cbn [negb];
    by eexists.
Qed.

Lemma underscore_id_is_locked_out_witness :
  JS.has_char "_" "a_1" = true
  ∧ ∃ w',
      MessagesRoutes.GET_conversation (canonicalId "a_1" "b") (Some "a_1")
        None None world_with_hello
      = (Ret {| status := 403;
                body := Failure "Access denied to this conversation" |}, w')
      ∧ messages w' = messages world_with_hello.
Proof.
  split; [reflexivity|].
  apply (underscore_id_is_locked_out world_with_hello
           (canonicalId "a_1" "b") "a_1" None None).
  reflexivity.
Defined.

(** ** Listing the conversations of a user *)

Lemma only_read_refl w : only_read w w.
Proof.
  repeat split. exists []. split; [by rewrite app_nil_r | constructor].
Qed.

Lemma only_read_trans w1 w2 w3 :
  only_read w1 w2 → only_read w2 w3 → only_read w1 w3.
Proof.
  intros (Hu & Hc & Hm & Hn & He & l1 & Hl1 & Hr1)
         (Hu' & Hc' & Hm' & Hn' & He' & l2 & Hl2 & Hr2).
  repeat split; try congruence.
  exists (l1 ++ l2)%list. split; [|by apply Forall_app].
  by rewrite Hl2, Hl1, app_assoc.
Qed.

Lemma latest_message cid (msgs : list Message.t) :
  let found := List.filter
                 (λ m, bool_decide (Message.conversationId m = Some cid)) msgs
  in
  match head (foldr MessagesRoutes.insert_desc [] found) with
  | Some m =>
      m ∈ msgs ∧ Message.conversationId m = Some cid
      ∧ ∀ m', m' ∈ msgs → Message.conversationId m' = Some cid →
              (Message.timestamp m' ≤ Message.timestamp m)%Z
  | None => ∀ m, m ∈ msgs → Message.conversationId m ≠ Some cid
  end.
Proof.
  intros found. rewrite sort_desc_by.
  pose proof (sort_by_perm Message.timestamp found) as Hperm.
  pose proof (sort_by_sorted Message.timestamp found) as Hsorted.
  assert (∀ m, m ∈ found ↔
               m ∈ msgs ∧ Message.conversationId m = Some cid) as Hfound.
  { intros m. subst found.
    rewrite list_elem_of_In, List.filter_In, bool_decide_eq_true.
    by rewrite <- list_elem_of_In. }
  destruct (foldr _ _ found) as [|m sorted]; cbn.
  - intros m Hm Hc. apply Permutation_nil_l in Hperm.
    assert (m ∈ found) as Hin by (by apply Hfound).
    rewrite <- Hperm in Hin. by apply elem_of_nil in Hin.
  - assert (m ∈ found) as Hin by (rewrite <- Hperm; left).
    apply Hfound in Hin as [Hm Hc]. do 2 (split; [done|]).
    intros m' Hm' Hc'.
    assert (m' ∈ m :: sorted) as Hin'.
    { rewrite Hperm. by apply Hfound. }
    apply StronglySorted_inv in Hsorted as [_ Hall].
    rewrite Forall_forall in Hall.
    apply elem_of_cons in Hin' as [->|Hin']; [lia|]. by apply Hall.
Qed.

Lemma conversation_of_run uid p w :
  ∃ c w',
    MessagesRoutes.conversation_of uid p w = (Ret c, w')
    ∧ only_read w w'
    ∧ Conversation.partner c = p
    ∧ reports uid (messages w) c.
Proof.
  destruct w as [us cs ms ns oid lg ou ss rs em clk dc].
  run_all.
  pose proof (latest_message
                (MessagesRoutes.conversation_with uid (User.uid p)) ms)
    as Hlast. cbn zeta in Hlast.
  destruct (head _) as [m|]; cbn [fmap option_fmap option_map];
    cbv beta iota zeta; eexists _, _; (split; [reflexivity|]);
    (split; [|split; [reflexivity|]]).
  - repeat split. eexists. split; [by rewrite <- app_assoc|].
    by repeat constructor.
  - unfold reports. cbn. do 2 (split; [done|]).
    destruct Hlast as (Hm & Hc & Hmax). by exists m.
  - repeat split. eexists. split; [by rewrite <- app_assoc|].
    by repeat constructor.
  - unfold reports. cbn. by do 2 (split; [done|]).
Qed.

Lemma for_each_conversations uid partners :
  ∀ w, ∃ convs w',
    for_each (MessagesRoutes.conversation_of uid) partners w = (Ret convs, w')
    ∧ only_read w w'
    ∧ Conversation.partner <$> convs = partners
    ∧ Forall (reports uid (messages w)) convs.
Proof.
  induction partners as [|p partners IH]; intros w.
  - exists [], w. split; [done|]. split; [apply only_read_refl|done].
  - destruct (conversation_of_run uid p w) as (c & w1 & Hrun & Hread & Hp & Hc).
    destruct (IH w1) as (convs & w2 & Hrest & Hread' & Hps & Hcs).
    exists (c :: convs), w2. cbn [for_each]. unfold mbind, M_bind at 1.
    rewrite Hrun. unfold mbind, M_bind at 1. rewrite Hrest.
    split; [done|]. split; [by eapply only_read_trans|].
    split; [cbn; by rewrite Hp, Hps|].
    constructor; [done|].
    destruct Hread as (_ & _ & <- & _). done.
Qed.

Lemma conversations_listing w uid :
  ∃ convs w',
    MessagesRoutes.GET_conversations uid w
    = (Ret (200, ConversationList convs (length convs)), w')
    ∧ only_read w w'
    ∧ Forall (reports uid (messages w)) convs
    ∧ Forall (λ c,
        Conversation.partner c ∈ users w
        ∧ ∃ k, k ∈ connections w ∧ accepted_of (Some uid) k = true
               ∧ User.uid (Conversation.partner c)
                 = MessagesRoutes.partner_of uid k) convs
    ∧ StronglySorted
        (λ a b, (Conversation.updatedAt b ≤ Conversation.updatedAt a)%Z)
        convs.
Proof.
  destruct w as [us cs ms ns oid lg ou ss rs em clk dc].
  cbv [MessagesRoutes.GET_conversations route_reply try_catch
       connections_find users_find access gets modify mbind M_bind mret
       M_ret set_store_log users connections store_log].
  set (ids := MessagesRoutes.partner_of uid
              <$> List.filter (accepted_of (Some uid)) cs).
  set (partners := List.filter (λ u, bool_decide (User.uid u ∈ ids)) us).
  set (w1 := mkWorld _ _ _ _ _ _ _ _ _ _ _ _).
  destruct (for_each_conversations uid partners w1)
    as (convs & w2 & Hrun & Hread & Hps & Hcs).
  rewrite Hrun. eexists _, _. split; [reflexivity|].
  pose proof (sort_by_perm Conversation.updatedAt convs) as Hperm.
  split; [|split; [|split]].
  - destruct Hread as (Hu & Hc & Hm & Hn & He & calls & Hlog & Hcalls).
    repeat split; try done.
    exists ([(Read, Connections); (Read, Users)] ++ calls)%list.
    split; [|by repeat constructor].
    rewrite Hlog. subst w1. cbn. by rewrite <- !app_assoc.
  - rewrite Hperm. exact Hcs.
  - rewrite Hperm. apply Forall_forall. intros c Hc.
    assert (Conversation.partner c ∈ partners) as Hp.
    { rewrite <- Hps. by apply list_elem_of_fmap_2. }
    subst partners. apply list_elem_of_In, List.filter_In in Hp as [Hp Hid].
    split; [by apply list_elem_of_In|].
    apply bool_decide_eq_true in Hid. subst ids.
    apply list_elem_of_fmap in Hid as (k & Hk & Hin).
    apply list_elem_of_In, List.filter_In in Hin as [Hin Hacc].
    exists k. by rewrite list_elem_of_In.
  - apply sort_by_sorted.
Qed.

(** X24: [GET /conversations/:userId] only reads the stores.  Every
    conversation it lists is with a stored user who is the other end of an
    accepted connection of the requesting user; it carries the canonical id
    of the pair, the number of unread messages of that conversation
    addressed to the requesting user, and the latest message of the
    conversation; the list is ordered by date, latest first. *)
Theorem conversations_list w uid :
  ∃ convs w',
    MessagesRoutes.GET_conversations uid w
    = (Ret (200, ConversationList convs (length convs)), w')
    ∧ only_read w w'
    ∧ Forall (reports uid (messages w)) convs
    ∧ Forall (λ c,
        Conversation.partner c ∈ users w
        ∧ ∃ k, k ∈ connections w ∧ accepted_of (Some uid) k = true
               ∧ User.uid (Conversation.partner c)
                 = MessagesRoutes.partner_of uid k) convs
    ∧ StronglySorted
        (λ a b, (Conversation.updatedAt b ≤ Conversation.updatedAt a)%Z)
        convs.
Proof. apply conversations_listing. Qed.

Lemma fetch_messages w cid uid limit before :
  JS.truthy uid = true →
  JS.includes [JS.split "_" cid !! 0%nat; JS.split "_" cid !! 1%nat]
    (Some uid) = true →
  ∃ now,
    messages (MessagesRoutes.GET_conversation cid (Some uid) limit before w).2
    = (updateMany (unread_in (Some cid) (Some uid)) (set_read now)
         (messages w)).1.
Proof.
  intros Hu Hin. destruct w as [us cs ms ns oid lg ou ss rs em clk dc].
  run_all. cbn [JS.truthy_field]. rewrite Hu.
  destruct before; cbv beta iota zeta; rewrite Hin; cbn [negb];
    by eexists.
Qed.

Lemma conversations_listing_partners w uid :
  ∃ convs w',
    MessagesRoutes.GET_conversations uid w
    = (Ret (200, ConversationList convs (length convs)), w')
    ∧ Forall (reports uid (messages w)) convs
    ∧ Conversation.partner <$> convs
      ≡ₚ List.filter
           (λ u, bool_decide
                   (User.uid u
                    ∈ MessagesRoutes.partner_of uid
                      <$> List.filter (accepted_of (Some uid))
                            (connections w)))
           (users w).
Proof.
  destruct w as [us cs ms ns oid lg ou ss rs em clk dc].
  cbv [MessagesRoutes.GET_conversations route_reply try_catch
       connections_find users_find access gets modify mbind M_bind mret
       M_ret set_store_log users connections store_log].
  set (ids := MessagesRoutes.partner_of uid
              <$> List.filter (accepted_of (Some uid)) cs).
  set (partners := List.filter (λ u, bool_decide (User.uid u ∈ ids)) us).
  set (w1 := mkWorld _ _ _ _ _ _ _ _ _ _ _ _).
  destruct (for_each_conversations uid partners w1)
    as (convs & w2 & Hrun & Hread & Hps & Hcs).
  rewrite Hrun. eexists _, _. split; [reflexivity|].
  pose proof (sort_by_perm Conversation.updatedAt convs) as Hperm.
  split.
  - rewrite Hperm. exact Hcs.
  - cbn [messages]. by rewrite Hperm, Hps.
Qed.

Lemma fetch_frame w cid uid limit before :
  let w' := (MessagesRoutes.GET_conversation cid uid limit before w).2 in
  users w' = users w ∧ connections w' = connections w.
Proof.
  destruct w as [us cs ms ns oid lg ou ss rs em clk dc]. run_all.
  cbv [updateMany fst snd].
  repeat (branch; cbv beta iota zeta); by split.
Qed.

(** X25: once a participant has fetched a conversation with
    [GET /conversation/:conversationId], the list of
    [GET /conversations/:userId] holds that conversation for them, with the
    partner and the canonical id, and shows it with no unread message.  The
    two identities contain no underscore, the partner is a stored user and
    an accepted connection joins the two. *)
Theorem fetch_then_list w a b limit before k u
    (Ha : JS.has_char "_" a = false) (Hb : JS.has_char "_" b = false)
    (Hta : JS.truthy a = true)
    (Hk : k ∈ connections w)
    (Hacc : accepted_of (Some a) k = true)
    (Hpartner : MessagesRoutes.partner_of a k = Some b)
    (Hu : u ∈ users w)
    (Huid : User.uid u = Some b) :
  let w1 := (MessagesRoutes.GET_conversation (canonicalId a b) (Some a)
               limit before w).2 in
  ∃ convs w2,
    MessagesRoutes.GET_conversations a w1
    = (Ret (200, ConversationList convs (length convs)), w2)
    ∧ (∃ c, c ∈ convs
            ∧ Conversation.partner c = u
            ∧ Conversation.conversationId c = canonicalId a b
            ∧ Conversation.unreadCount c = 0)
    ∧ Forall (λ c, Conversation.conversationId c = canonicalId a b →
                   Conversation.unreadCount c = 0) convs.
Proof.
  intros w1.
  destruct (conversations_listing_partners w1 a)
    as (convs & w2 & Hrun & Hrep & Hperm).
  exists convs, w2. split; [done|].
  destruct (fetch_messages w (canonicalId a b) a limit before Hta
              (canonical_includes a b Ha Hb)) as [now Hmsgs].
  fold w1 in Hmsgs.
  destruct (fetch_frame w (canonicalId a b) (Some a) limit before)
    as [Hus Hcs]. fold w1 in Hus, Hcs.
  assert (Forall (λ c, Conversation.conversationId c = canonicalId a b →
                       Conversation.unreadCount c = 0) convs) as Hzero.
  { eapply Forall_impl; [exact Hrep|].
    intros c (_ & Hcount & _) Hcid. cbn zeta in Hcount.
    rewrite Hcount, Hcid, Hmsgs.
    apply countDocuments_settled. intros m. apply unread_in_set_read. }
  split; [|exact Hzero].
  assert (u ∈ Conversation.partner <$> convs) as Hin.
  { rewrite Hperm, Hus, Hcs.
    apply list_elem_of_In, List.filter_In. split; [by apply list_elem_of_In|].
    apply bool_decide_eq_true. rewrite Huid, <- Hpartner.
    apply list_elem_of_fmap_2, list_elem_of_In, List.filter_In.
    split; [by apply list_elem_of_In|done]. }
  apply list_elem_of_fmap in Hin as (c & Hc & Hcin).
  exists c. split; [done|]. split; [done|].
  rewrite Forall_forall in Hrep, Hzero.
  destruct (Hrep c Hcin) as (Hcid & _). cbn zeta in Hcid.
  rewrite <- Hc, Huid in Hcid. cbn in Hcid.
  split; [done|]. by apply Hzero.
Qed.

Lemma fetch_then_list_witness :
  JS.has_char "_" "b" = false ∧ JS.has_char "_" "a" = false
  ∧ JS.truthy "b" = true
  ∧ Connection.mk (Some "a") (Some "b") "accepted"
    ∈ connections world_connected
  ∧ accepted_of (Some "b") (Connection.mk (Some "a") (Some "b") "accepted")
    = true
  ∧ MessagesRoutes.partner_of "b"
      (Connection.mk (Some "a") (Some "b") "accepted") = Some "a"
  ∧ User.mk (Some "a") (Some "Ann") None ∈ users world_connected
  ∧ (let w1 := (MessagesRoutes.GET_conversation (canonicalId "b" "a")
                  (Some "b") None None world_connected).2 in
     ∃ convs w2,
       MessagesRoutes.GET_conversations "b" w1
       = (Ret (200, ConversationList convs (length convs)), w2)
       ∧ (∃ c, c ∈ convs
               ∧ Conversation.partner c = User.mk (Some "a") (Some "Ann") None
               ∧ Conversation.conversationId c = canonicalId "b" "a"
               ∧ Conversation.unreadCount c = 0)
       ∧ Forall (λ c, Conversation.conversationId c = canonicalId "b" "a" →
                      Conversation.unreadCount c = 0) convs).
Proof.
  assert (Connection.mk (Some "a") (Some "b") "accepted"
          ∈ connections world_connected) as Hk by left.
  assert (User.mk (Some "a") (Some "Ann") None ∈ users world_connected)
    as Hu by left.
  do 3 (split; [reflexivity|]). split; [exact Hk|].
  do 2 (split; [reflexivity|]). split; [exact Hu|].
  apply (fetch_then_list world_connected "b" "a" None None
           (Connection.mk (Some "a") (Some "b") "accepted")
           (User.mk (Some "a") (Some "Ann") None));
    first [reflexivity | exact Hk | exact Hu].
Defined.

(** ** The properties with a precondition, at sample worlds *)

Lemma presence_keys_distinct_witness :
  NoDup (onlineUsers world_a_online).*1
  ∧ NoDup (onlineUsers (on_user_online "s1" "b" world_a_online).2).*1
  ∧ NoDup (onlineUsers (on_disconnect "s1" world_a_online).2).*1.
Proof.
  assert (NoDup (onlineUsers world_a_online).*1) as Hkeys.
  { vm_compute. apply NoDup_singleton. }
  split; [exact Hkeys|].
  exact (presence_keys_distinct world_a_online "s1" "b" Hkeys).
Defined.

Lemma disconnect_unregistered_witness :
  registered_as "s2" (onlineUsers world_a_online) = None
  ∧ ∃ w',
      on_disconnect "s2" world_a_online = (Ret tt, w')
      ∧ onlineUsers w' = onlineUsers world_a_online
      ∧ emitted w' = emitted world_a_online
      ∧ ("s2" ∉ sockets w')
      ∧ ∀ room, "s2" ∉ members w' room.
Proof.
  split; [reflexivity|].
  apply (disconnect_unregistered world_a_online "s2"). reflexivity.
Defined.

Lemma disconnect_registered_witness :
  NoDup (onlineUsers world_a_online).*1
  ∧ registered_as "s1" (onlineUsers world_a_online) = Some "a"
  ∧ ∃ w',
      on_disconnect "s1" world_a_online = (Ret tt, w')
      ∧ Map_get "a" (onlineUsers world_a_online) = Some "s1"
      ∧ Map_get "a" (onlineUsers w') = None
      ∧ (∀ u', u' ≠ "a" →
           Map_get u' (onlineUsers w') = Map_get u' (onlineUsers world_a_online))
      ∧ emitted w'
        = (emitted world_a_online
           ++ [{| target := Broadcast "s1"; event := "user-status-changed";
                  payload := PStatus "a" "offline";
                  delivered_to :=
                    sockets world_a_online
                    ∖ ({["s1"]} ∪ members world_a_online (Some "s1")) |}])%list.
Proof.
  assert (NoDup (onlineUsers world_a_online).*1) as Hkeys.
  { vm_compute. apply NoDup_singleton. }
  split; [exact Hkeys|]. split; [reflexivity|].
  apply (disconnect_registered world_a_online "s1" "a" Hkeys). reflexivity.
Defined.

Lemma last_connection_wins_witness :
  "s1" ≠ "s2"
  ∧ registered_as "s1" (onlineUsers empty_world) = None
  ∧ (let w1 := (on_user_online "s1" "a" empty_world).2 in
     let w2 := (on_user_online "s2" "a" w1).2 in
     ∃ w3,
       on_disconnect "s1" w2 = (Ret tt, w3)
       ∧ Map_get "a" (onlineUsers w3) = Some "s2"
       ∧ emitted w3 = emitted w2).
Proof.
  assert ("s1" ≠ "s2") as Hne by discriminate.
  split; [exact Hne|]. split; [reflexivity|].
  apply (last_connection_wins empty_world "s1" "s2" "a" Hne). reflexivity.
Defined.

Lemma online_receiver_is_notified_witness :
  Map_get "b" (onlineUsers world_b_online) = Some "s2"
  ∧ JS.truthy "s2" = true
  ∧ ∃ m n w',
      on_send_message "s1" hi_from_a world_b_online = (Ret tt, w')
      ∧ notifications w' = (notifications world_b_online ++ [n])%list
      ∧ Notification.userId n = Some "b"
      ∧ Notification.message n = preview "hi"
      ∧ emitted w'
        = (emitted world_b_online
           ++ [{| target := ToRoom (Some "s2"); event := "new-notification";
                  payload := PNotification n;
                  delivered_to := members world_b_online (Some "s2") |};
               {| target := ToRoom (Some (notification_room (Some "b")));
                  event := "notification-count";
                  payload :=
                    PCount (S (countDocuments (unread_of (Some "b"))
                                 (notifications world_b_online)));
                  delivered_to :=
                    members world_b_online
                      (Some (notification_room (Some "b"))) |};
               {| target := ToRoom (Some "a_b"); event := "receive-message";
                  payload := PMessage m;
                  delivered_to := members world_b_online (Some "a_b") |};
               {| target := ToSelf "s1"; event := "message-sent";
                  payload := PMessage m; delivered_to := {["s1"]} |}])%list.
Proof.
  split; [reflexivity|]. split; [reflexivity|].
  apply (online_receiver_is_notified world_b_online "s1" (Some "a_b")
           (Some "a") "b" "hi" "s2"); reflexivity.
Defined.

Example online_receiver_gets_both :
  (λ e, (event e, elements (delivered_to e)))
    <$> emitted (on_send_message "s1" hi_from_a world_b_online).2
  = [("user-status-changed", ["s1"]); ("notification-count", ["s2"]);
     ("new-notification", ["s2"]); ("notification-count", ["s2"]);
     ("receive-message", ["s1"]); ("message-sent", ["s1"])].
Proof. vm_compute. reflexivity. Qed.

Lemma mark_read_account_witness :
  JS.truthy_field (Some "a_b") = true ∧ JS.truthy "b" = true
  ∧ ∃ before flipped w1 w2 w3,
      MessagesRoutes.GET_unread_count "b" world_with_hello
      = (Ret {| status := 200; body := Count before |}, w1)
      ∧ MessagesRoutes.POST_mark_read (MarkRead.mk (Some "a_b") (Some "b")) w1
        = (Ret {| status := 200;
                  body := Modified "Messages marked as read" flipped |}, w2)
      ∧ MessagesRoutes.GET_unread_count "b" w2
        = (Ret {| status := 200; body := Count (before - flipped) |}, w3)
      ∧ flipped
        = countDocuments (unread_in (Some "a_b") (Some "b"))
            (messages world_with_hello)
      ∧ (flipped ≤ before)%nat.
Proof.
  split; [reflexivity|]. split; [reflexivity|].
  apply (mark_read_account world_with_hello (Some "a_b") "b"); reflexivity.
Defined.

Lemma conversation_page_witness :
  JS.includes [JS.split "_" "a_b" !! 0%nat; JS.split "_" "a_b" !! 1%nat]
    (Some "b") = true
  ∧ ∃ page w',
      MessagesRoutes.GET_conversation "a_b" (Some "b") None None
        world_with_hello
      = (Ret {| status := 200;
                body := Page page
                          (Z.of_nat (length page) =? page_limit None)%Z |},
         w')
      ∧ Forall (λ m, m ∈ messages world_with_hello
                     ∧ Message.conversationId m = Some "a_b"
                     ∧ (Message.timestamp m
                        < default (clock world_with_hello
                                     (date_calls world_with_hello)) None)%Z)
          page
      ∧ (length page ≤ Z.abs_nat (page_limit None))%nat
      ∧ StronglySorted
          (λ a b, (Message.timestamp a ≤ Message.timestamp b)%Z) page.
Proof.
  split; [reflexivity|].
  apply (conversation_page world_with_hello "a_b" (Some "b") None None).
  reflexivity.
Defined.

Example page_shows_flags_before_marking :
  let '(r, w') := MessagesRoutes.GET_conversation "a_b" (Some "b") None None
                    world_with_hello in
  (r, Message.read <$> messages w')
  = (Ret {| status := 200; body := Page [hello] false |}, [true]).
Proof. vm_compute. reflexivity. Qed.

Example post_send_stores :
  let '(r, w') := MessagesRoutes.POST_send
                    (SendMessage.mk (Some "a_b") (Some "a") (Some "b")
                       (Some "  hello there "))
                    world_connected in
  (status <$> (match r with Ret x => Some x | Throw _ => None end),
   Message.content <$> messages w', length (notifications w'))
  = (Some 201, [Some "hi"; Some "hello there"], 0).
Proof. vm_compute. reflexivity. Qed.

Example listing_before_and_after_fetch :
  let unread w :=
    match (MessagesRoutes.GET_conversations "b" w).1 with
    | Ret (_, ConversationList convs _) =>
        (λ c, (Conversation.conversationId c, Conversation.unreadCount c))
        <$> convs
    | _ => []
    end in
  unread world_connected = [("a_b", 1)]
  ∧ unread (MessagesRoutes.GET_conversation "a_b" (Some "b") None None
              world_connected).2
    = [("a_b", 0)].
Proof. split; vm_compute; reflexivity. Qed.

(* ================================================================= *)
(** * Authorization *)









